(** * contextkeeper: the project manager (src/project_manager.py)

    A shallow embedding of [ProjectConfig], its dictionary form
    ([to_dict] / [from_dict]) and the [ProjectManager] store, with the
    properties its specification states about them.

    Conventions of the embedding.
    - The dataclass annotations are the types of the record fields.
    - A Python [dict] read from JSON is a [gmap string pyval]; the
      [projects] dict of the manager, whose iteration order the code relies
      on, is an insertion-ordered association list ([PyDict]).
    - What the code draws from its environment is an explicit argument of
      the operation that draws it: [uuid.uuid4().hex], every
      [datetime.now().isoformat()], the outcome of the file write, the
      order in which [glob] yields the files.
    - An operation is a computation in a state-and-exception monad over
      [world]: the manager's attributes, the files of [config_dir] and the
      log. *)

From Stdlib Require Import String Ascii ZArith Lia.
From stdpp Require Import base option list sorting strings gmap.


(** ** Python values as [json.load] produces them

    A float is kept by its literal: no operation of the manager computes
    with numbers. *)

#[warnings="-register-all"]
Inductive pyval :=
| PNone
| PBool (b : bool)
| PInt (z : Z)
| PFloat (literal : string)
| PStr (s : string)
| PList (l : list pyval)
| PDict (m : gmap string pyval).

(** ** Exceptions and fallible computations *)

Inductive exn :=
| KeyError (key : string)
| ValueError
| TypeError
| AttributeError
| JSONDecodeError
| FileNotFoundError
| OSError
| IllTyped (field : string).

Inductive result (A : Type) :=
| Ok (a : A)
| Raise (e : exn).
Arguments Ok {A} a.
Arguments Raise {A} e.

#[global] Instance result_ret : MRet result := λ A a, Ok a.
#[global] Instance result_bind : MBind result := λ A B f r,
  match r with
  | Ok a => f a
  | Raise e => Raise e
  end.

Fixpoint traverse {A B} (f : A → result B) (l : list A) : result (list B) :=
  match l with
  | [] => Ok []
  | a :: l' => b ← f a; bs ← traverse f l'; Ok (b :: bs)
  end.

(** ** The data model *)

Inductive ProjectStatus := ACTIVE | PAUSED | ARCHIVED.

#[global] Instance ProjectStatus_eq_dec : EqDecision ProjectStatus.
Proof. solve_decision. Defined.

Module Status.
(** [ProjectStatus.X.value] *)
Definition value (s : ProjectStatus) : string :=
  match s with
  | ACTIVE => "active"
  | PAUSED => "paused"
  | ARCHIVED => "archived"
  end.

(** [ProjectStatus(v)]: lookup by value, [ValueError] when there is none. *)
Definition of_value (v : pyval) : result ProjectStatus :=
  match v with
  | PStr s =>
      if decide (s = "active") then Ok ACTIVE
      else if decide (s = "paused") then Ok PAUSED
      else if decide (s = "archived") then Ok ARCHIVED
      else Raise ValueError
  | _ => Raise ValueError
  end.
End Status.

Module Decision.
Record t := mk {
  id : string;
  decision : string;
  reasoning : string;
  timestamp : string;
  tags : list string
}.
End Decision.

Module Objective.
Record t := mk {
  id : string;
  title : string;
  description : string;
  created_at : string;
  completed_at : option string;
  status : string;
  priority : string
}.

Definition complete (now : string) (o : t) : t :=
  {| id := id o; title := title o; description := description o;
     created_at := created_at o; completed_at := Some now;
     status := "completed"; priority := priority o |}.
End Objective.

Module ProjectConfig.
Record t := mk {
  project_id : string;
  name : string;
  root_path : string;
  watch_dirs : list string;
  status : ProjectStatus;
  created_at : string;
  last_active : string;
  description : string;
  file_extensions : list string;
  decisions : list Decision.t;
  objectives : list Objective.t;
  metadata : gmap string pyval
}.

Definition default_file_extensions : list string :=
  [".py"; ".js"; ".jsx"; ".ts"; ".tsx"; ".md"; ".json"; ".yaml"].

(** Attribute assignments [project.x = v]. *)
Definition set_last_active (v : string) (p : t) : t :=
  {| project_id := project_id p; name := name p; root_path := root_path p;
     watch_dirs := watch_dirs p; status := status p;
     created_at := created_at p; last_active := v;
     description := description p; file_extensions := file_extensions p;
     decisions := decisions p; objectives := objectives p;
     metadata := metadata p |}.

Definition set_status (v : ProjectStatus) (p : t) : t :=
  {| project_id := project_id p; name := name p; root_path := root_path p;
     watch_dirs := watch_dirs p; status := v;
     created_at := created_at p; last_active := last_active p;
     description := description p; file_extensions := file_extensions p;
     decisions := decisions p; objectives := objectives p;
     metadata := metadata p |}.

Definition set_decisions (v : list Decision.t) (p : t) : t :=
  {| project_id := project_id p; name := name p; root_path := root_path p;
     watch_dirs := watch_dirs p; status := status p;
     created_at := created_at p; last_active := last_active p;
     description := description p; file_extensions := file_extensions p;
     decisions := v; objectives := objectives p;
     metadata := metadata p |}.

Definition set_objectives (v : list Objective.t) (p : t) : t :=
  {| project_id := project_id p; name := name p; root_path := root_path p;
     watch_dirs := watch_dirs p; status := status p;
     created_at := created_at p; last_active := last_active p;
     description := description p; file_extensions := file_extensions p;
     decisions := decisions p; objectives := v;
     metadata := metadata p |}.
End ProjectConfig.

(** ** Keyword arguments and the typed reading of a value

    A dataclass constructor called with the keyword arguments [kw] raises
    [TypeError] on a keyword that is no field and on a missing field
    without default. Python
    does not check the annotations: a value of another type than the
    annotated one would be stored as it is. Such a value has no image in
    the typed records above, and the embedding makes the constructor fail
    on it with [IllTyped], which is no Python exception. *)

Definition as_str (field : string) (v : pyval) : result string :=
  match v with
  | PStr s => Ok s
  | _ => Raise (IllTyped field)
  end.

Definition as_str_list (field : string) (v : pyval) : result (list string) :=
  match v with
  | PList l => traverse (as_str field) l
  | _ => Raise (IllTyped field)
  end.

Definition as_opt_str (field : string) (v : pyval) : result (option string) :=
  match v with
  | PNone => Ok None
  | PStr s => Ok (Some s)
  | _ => Raise (IllTyped field)
  end.

Definition as_dict (field : string) (v : pyval) : result (gmap string pyval) :=
  match v with
  | PDict m => Ok m
  | _ => Raise (IllTyped field)
  end.

(** A field without default. *)
Definition required (kw : gmap string pyval) (field : string) : result pyval :=
  match kw !! field with
  | Some v => Ok v
  | None => Raise TypeError
  end.

(** A field with a default. *)
Definition optional (kw : gmap string pyval) (field : string) (dflt : pyval)
  : pyval :=
  default dflt (kw !! field).

Definition only_fields (kw : gmap string pyval) (fields : gset string)
  : result unit :=
  if bool_decide (dom kw ⊆ fields) then Ok () else Raise TypeError.

(** [Decision] called with the keywords [kw], with [__post_init__]: [tags]
    is the empty list when [None]. *)
Definition Decision_init (kw : gmap string pyval) : result Decision.t :=
  only_fields kw {[ "id"; "decision"; "reasoning"; "timestamp"; "tags" ]};;
  v_id ← required kw "id";
  v_decision ← required kw "decision";
  v_reasoning ← required kw "reasoning";
  v_timestamp ← required kw "timestamp";
  id ← as_str "id" v_id;
  decision ← as_str "decision" v_decision;
  reasoning ← as_str "reasoning" v_reasoning;
  timestamp ← as_str "timestamp" v_timestamp;
  tags ← match optional kw "tags" PNone with
         | PNone => Ok []
         | v => as_str_list "tags" v
         end;
  Ok (Decision.mk id decision reasoning timestamp tags).

(** [Objective] called with the keywords [kw]: [completed_at], [status] and [priority] default to
    [None], ["pending"] and ["medium"]. *)
Definition Objective_init (kw : gmap string pyval) : result Objective.t :=
  only_fields kw {[ "id"; "title"; "description"; "created_at";
                    "completed_at"; "status"; "priority" ]};;
  v_id ← required kw "id";
  v_title ← required kw "title";
  v_description ← required kw "description";
  v_created_at ← required kw "created_at";
  id ← as_str "id" v_id;
  title ← as_str "title" v_title;
  description ← as_str "description" v_description;
  created_at ← as_str "created_at" v_created_at;
  completed_at ← as_opt_str "completed_at" (optional kw "completed_at" PNone);
  status ← as_str "status" (optional kw "status" (PStr "pending"));
  priority ← as_str "priority" (optional kw "priority" (PStr "medium"));
  Ok (Objective.mk id title description created_at completed_at status priority).

Definition ProjectConfig_fields : gset string :=
  {[ "project_id"; "name"; "root_path"; "watch_dirs"; "status"; "created_at";
     "last_active"; "description"; "file_extensions"; "decisions";
     "objectives"; "metadata" ]}.

(** The call of [cls] on the keywords [data] in [from_dict], where [data] already holds the enum member
    under ['status'] and the lists of [Decision] and [Objective] objects
    under ['decisions'] and ['objectives']: these three come typed, the
    other fields are read from [kw]. [__post_init__] fills [file_extensions]
    and [metadata] when they are [None]. *)
Definition ProjectConfig_init (kw : gmap string pyval) (status : ProjectStatus)
    (decisions : list Decision.t) (objectives : list Objective.t)
  : result ProjectConfig.t :=
  only_fields kw ProjectConfig_fields;;
  v_project_id ← required kw "project_id";
  v_name ← required kw "name";
  v_root_path ← required kw "root_path";
  v_watch_dirs ← required kw "watch_dirs";
  v_created_at ← required kw "created_at";
  v_last_active ← required kw "last_active";
  project_id ← as_str "project_id" v_project_id;
  name ← as_str "name" v_name;
  root_path ← as_str "root_path" v_root_path;
  watch_dirs ← as_str_list "watch_dirs" v_watch_dirs;
  created_at ← as_str "created_at" v_created_at;
  last_active ← as_str "last_active" v_last_active;
  description ← as_str "description" (optional kw "description" (PStr ""));
  file_extensions ← match optional kw "file_extensions" PNone with
                    | PNone => Ok ProjectConfig.default_file_extensions
                    | v => as_str_list "file_extensions" v
                    end;
  metadata ← match optional kw "metadata" PNone with
             | PNone => Ok ∅
             | v => as_dict "metadata" v
             end;
  Ok (ProjectConfig.mk project_id name root_path watch_dirs status created_at
        last_active description file_extensions decisions objectives metadata).

(** ** [asdict], [to_dict] and [from_dict] *)

Definition asdict_decision (d : Decision.t) : gmap string pyval :=
  <[ "id" := PStr (Decision.id d) ]>
  (<[ "decision" := PStr (Decision.decision d) ]>
  (<[ "reasoning" := PStr (Decision.reasoning d) ]>
  (<[ "timestamp" := PStr (Decision.timestamp d) ]>
  (<[ "tags" := PList (PStr <$> Decision.tags d) ]> ∅)))).

Definition py_opt_str (o : option string) : pyval :=
  match o with
  | Some s => PStr s
  | None => PNone
  end.

Definition asdict_objective (o : Objective.t) : gmap string pyval :=
  <[ "id" := PStr (Objective.id o) ]>
  (<[ "title" := PStr (Objective.title o) ]>
  (<[ "description" := PStr (Objective.description o) ]>
  (<[ "created_at" := PStr (Objective.created_at o) ]>
  (<[ "completed_at" := py_opt_str (Objective.completed_at o) ]>
  (<[ "status" := PStr (Objective.status o) ]>
  (<[ "priority" := PStr (Objective.priority o) ]> ∅)))))).

(** [ProjectConfig.to_dict]: [asdict(self)], then ['status'] replaced by the
    value of the enum member and ['decisions'], ['objectives'] by the lists
    of the dictionaries of their elements. *)
Definition to_dict (p : ProjectConfig.t) : gmap string pyval :=
  <[ "objectives" := PList ((PDict ∘ asdict_objective) <$> ProjectConfig.objectives p) ]>
  (<[ "decisions" := PList ((PDict ∘ asdict_decision) <$> ProjectConfig.decisions p) ]>
  (<[ "status" := PStr (Status.value (ProjectConfig.status p)) ]>
  (<[ "project_id" := PStr (ProjectConfig.project_id p) ]>
  (<[ "name" := PStr (ProjectConfig.name p) ]>
  (<[ "root_path" := PStr (ProjectConfig.root_path p) ]>
  (<[ "watch_dirs" := PList (PStr <$> ProjectConfig.watch_dirs p) ]>
  (<[ "created_at" := PStr (ProjectConfig.created_at p) ]>
  (<[ "last_active" := PStr (ProjectConfig.last_active p) ]>
  (<[ "description" := PStr (ProjectConfig.description p) ]>
  (<[ "file_extensions" := PList (PStr <$> ProjectConfig.file_extensions p) ]>
  (<[ "metadata" := PDict (ProjectConfig.metadata p) ]> ∅))))))))))).

(** Iteration [for d in v] over a value: the elements of a list, the keys of
    a dict, the characters of a string; [TypeError] on the others. *)
Definition py_iter (v : pyval) : result (list pyval) :=
  match v with
  | PList l => Ok l
  | PDict m => Ok (PStr <$> (map_to_list m).*1)
  | PStr s => Ok ((λ c, PStr (String c EmptyString)) <$> list_ascii_of_string s)
  | _ => Raise TypeError
  end.

(** The call of a constructor on the keywords of an element [d] of the
    iteration: [d] must be a mapping. *)
Definition splat {A} (init : gmap string pyval → result A) (d : pyval)
  : result A :=
  match d with
  | PDict kw => init kw
  | _ => Raise TypeError
  end.

(** [ProjectConfig.from_dict]. *)
Definition from_dict (data : pyval) : result ProjectConfig.t :=
  match data with
  | PDict data =>
      v_status ← match data !! "status" with
                 | Some v => Ok v
                 | None => Raise (KeyError "status")
                 end;
      status ← Status.of_value v_status;
      ds ← py_iter (optional data "decisions" (PList []));
      decisions ← traverse (splat Decision_init) ds;
      os ← py_iter (optional data "objectives" (PList []));
      objectives ← traverse (splat Objective_init) os;
      ProjectConfig_init data status decisions objectives
  | PList _ => Raise TypeError
  | _ => Raise AttributeError
  end.

(** ** Insertion-ordered dictionaries

    A Python [dict] keeps its keys in the order of their first insertion;
    an assignment to a key that is present keeps the key at its place. *)

Module PyDict.
Section Ops.
Context {V : Type}.

(** [d.get(k)] *)
Fixpoint get (k : string) (d : list (string * V)) : option V :=
  match d with
  | [] => None
  | (k', v) :: d' => if decide (k = k') then Some v else get k d'
  end.

(** [d[k] = v] *)
Fixpoint setitem (k : string) (v : V) (d : list (string * V))
  : list (string * V) :=
  match d with
  | [] => [(k, v)]
  | (k', v') :: d' =>
      if decide (k = k') then (k', v) :: d' else (k', v') :: setitem k v d'
  end.

(** [d.values()] *)
Definition values (d : list (string * V)) : list V := d.*2.
End Ops.
End PyDict.

(** ** The world an operation runs in *)

(** What a file of [config_dir] holds: a text that [json.load] rejects, or
    the text of a JSON document, taken as the value [json.load] reads from
    it ([json.dump] of that value writes such a text). *)
Inductive content :=
| Malformed (text : string)
| Document (v : pyval).

Inductive log_record :=
| Info (msg : string)
| Error (config_file : string) (e : exn).

(** [projects] and [focused_project_id] are the attributes of the manager;
    [files] are the files of [config_dir], by name; [log] is what the module
    logger received, oldest first. *)
Record world := World {
  projects : list (string * ProjectConfig.t);
  focused_project_id : option string;
  files : gmap string content;
  log : list log_record
}.

Definition M (A : Type) : Type := world → result A * world.

#[global] Instance M_ret : MRet M := λ A a w, (Ok a, w).
#[global] Instance M_bind : MBind M := λ A B f m w,
  match m w with
  | (Ok a, w') => f a w'
  | (Raise e, w') => (Raise e, w')
  end.

Definition gets {A} (f : world → A) : M A := λ w, (Ok (f w), w).

Definition raise {A} (e : exn) : M A := λ w, (Raise e, w).

Definition lift {A} (r : result A) : M A := λ w, (r, w).

(** [try: body except Exception as e: handler(e)] *)
Definition try_except {A} (body : M A) (handler : exn → M A) : M A := λ w,
  match body w with
  | (Ok a, w') => (Ok a, w')
  | (Raise e, w') => handler e w'
  end.

Fixpoint for_each {A} (l : list A) (body : A → M ()) : M () :=
  match l with
  | [] => mret ()
  | a :: l' => body a;; for_each l' body
  end.

Definition set_projects (ps : list (string * ProjectConfig.t)) : M () := λ w,
  (Ok (), World ps (focused_project_id w) (files w) (log w)).

Definition set_focused_project_id (f : option string) : M () := λ w,
  (Ok (), World (projects w) f (files w) (log w)).

Definition write_file (config_file : string) (c : content) : M () := λ w,
  (Ok (), World (projects w) (focused_project_id w)
            (<[config_file := c]> (files w)) (log w)).

Definition logger_info (msg : string) : M () := λ w,
  (Ok (), World (projects w) (focused_project_id w) (files w)
            (log w ++ [Info msg])).

Definition logger_error (config_file : string) (e : exn) : M () := λ w,
  (Ok (), World (projects w) (focused_project_id w) (files w)
            (log w ++ [Error config_file e])).

(** [self.projects[k] = p] *)
Definition store_project (k : string) (p : ProjectConfig.t) : M () :=
  ps ← gets projects;
  set_projects (PyDict.setitem k p ps).

(** [project = self.projects[k]] followed by assignments to attributes of
    [project]: the object in the dict is the one that changes. The result is
    the object after the assignments. *)
Definition mutate (k : string) (f : ProjectConfig.t → ProjectConfig.t)
  : M ProjectConfig.t :=
  ps ← gets projects;
  match PyDict.get k ps with
  | Some p => set_projects (PyDict.setitem k (f p) ps);; mret (f p)
  | None => raise (KeyError k)
  end.

(** [with open(config_file, 'r') as f: json.load(f)] *)
Definition read_json (config_file : string) : M pyval :=
  fs ← gets files;
  match fs !! config_file with
  | Some (Document v) => mret v
  | Some (Malformed _) => raise JSONDecodeError
  | None => raise FileNotFoundError
  end.

(** Truth value of [self.focused_project_id]: [None] and the empty string
    are false. *)
Definition truthy (f : option string) : bool :=
  match f with
  | Some s => negb (bool_decide (s = ""))
  | None => false
  end.

(** How the write of [save_project] ends: it succeeds; [open] fails and the
    file is as before; or [json.dump] fails after [open] has truncated the
    file, which is left with a part of the text. *)
Inductive write_outcome :=
| WriteOk
| OpenFails
| DumpFails (partial : string).

Definition config_file_of (project_id : string) : string :=
  project_id +:+ ".json".

(** ** The operations of [ProjectManager] *)

Definition is_active (p : ProjectConfig.t) : bool :=
  bool_decide (ProjectConfig.status p = ACTIVE).

(** The body of the loop of [load_all_projects], for one file. *)
Definition load_config_file (config_file : string) : M () :=
  try_except
    (data ← read_json config_file;
     project ← lift (from_dict data);
     store_project (ProjectConfig.project_id project) project;;
     logger_info ("Loaded project: " +:+ ProjectConfig.name project +:+ " ("
                  +:+ ProjectConfig.project_id project +:+ ")"))
    (λ e, logger_error config_file e).

(** [listing] is what [self.config_dir.glob] yields, in its order. *)
Definition load_all_projects (listing : list string) : M () :=
  for_each listing load_config_file;;
  focused ← gets focused_project_id;
  ps ← gets projects;
  if negb (truthy focused) && negb (bool_decide (ps = [])) then
    match filter (λ p, is_active p = true) (PyDict.values ps) with
    | p :: _ => set_focused_project_id (Some (ProjectConfig.project_id p))
    | [] => mret ()
    end
  else mret ().

(** [ProjectManager(config_dir)] on an existing directory that holds
    [disk]. *)
Definition init (listing : list string) (disk : gmap string content)
  : result () * world :=
  load_all_projects listing (World [] None disk []).

Definition save_project (io : write_outcome) (project : ProjectConfig.t)
  : M () :=
  let config_file := config_file_of (ProjectConfig.project_id project) in
  match io with
  | WriteOk =>
      write_file config_file (Document (PDict (to_dict project)));;
      logger_info ("Saved project config: " +:+ ProjectConfig.name project)
  | OpenFails => raise OSError
  | DumpFails partial =>
      write_file config_file (Malformed partial);; raise OSError
  end.

Definition get_project (project_id : string) : M (option ProjectConfig.t) :=
  ps ← gets projects;
  mret (PyDict.get project_id ps).

Definition get_focused_project : M (option ProjectConfig.t) :=
  focused ← gets focused_project_id;
  ps ← gets projects;
  if truthy focused then mret (PyDict.get (default "" focused) ps)
  else mret None.

Definition set_focus (now : string) (io : write_outcome) (project_id : string)
  : M bool :=
  ps ← gets projects;
  match PyDict.get project_id ps with
  | Some _ =>
      set_focused_project_id (Some project_id);;
      project ← mutate project_id (ProjectConfig.set_last_active now);
      save_project io project;;
      logger_info ("Focused on project: " +:+ ProjectConfig.name project);;
      mret true
  | None => mret false
  end.

Definition update_status (now : string) (io : write_outcome)
    (project_id : string) (status : ProjectStatus) : M bool :=
  ps ← gets projects;
  match PyDict.get project_id ps with
  | Some _ =>
      project ← mutate project_id
                  (ProjectConfig.set_last_active now
                   ∘ ProjectConfig.set_status status);
      save_project io project;;
      logger_info ("Updated project " +:+ ProjectConfig.name project
                   +:+ " status to: " +:+ Status.value status);;
      mret true
  | None => mret false
  end.

Definition pause_project now io project_id : M bool :=
  update_status now io project_id PAUSED.

Definition resume_project now io project_id : M bool :=
  update_status now io project_id ACTIVE.

Definition archive_project now io project_id : M bool :=
  update_status now io project_id ARCHIVED.

(** [uuid_hex] is [uuid.uuid4().hex]; [now1] and [now2] are the two readings
    of the clock, in the order of the calls. [tags] is [None] when absent;
    [tags or []] also turns an empty list into the empty list. *)
Definition add_decision (uuid_hex now1 now2 : string) (io : write_outcome)
    (project_id decision reasoning : string) (tags : option (list string))
  : M (option Decision.t) :=
  ps ← gets projects;
  match PyDict.get project_id ps with
  | None => mret None
  | Some _ =>
      let decision_obj :=
        Decision.mk ("dec_" +:+ substring 0 8 uuid_hex) decision reasoning
          now1 (default [] tags) in
      project ← mutate project_id (λ p,
        ProjectConfig.set_last_active now2
          (ProjectConfig.set_decisions
             (ProjectConfig.decisions p ++ [decision_obj]) p));
      save_project io project;;
      logger_info ("Added decision to project " +:+ ProjectConfig.name project
                   +:+ ": " +:+ decision);;
      mret (Some decision_obj)
  end.

(** [description] and [priority] default to [""] and ["medium"] at the
    call. *)
Definition add_objective (uuid_hex now1 now2 : string) (io : write_outcome)
    (project_id title description priority : string)
  : M (option Objective.t) :=
  ps ← gets projects;
  match PyDict.get project_id ps with
  | None => mret None
  | Some _ =>
      let objective :=
        Objective.mk ("obj_" +:+ substring 0 8 uuid_hex) title description
          now1 None "pending" priority in
      project ← mutate project_id (λ p,
        ProjectConfig.set_last_active now2
          (ProjectConfig.set_objectives
             (ProjectConfig.objectives p ++ [objective]) p));
      save_project io project;;
      logger_info ("Added objective to project " +:+ ProjectConfig.name project
                   +:+ ": " +:+ title);;
      mret (Some objective)
  end.

(** The loop of [complete_objective] over [project.objectives]: the first
    objective whose id is [objective_id] is completed in place; the result
    is that objective before the assignment and the list after it, or
    [None] when the loop ends without a match. *)
Fixpoint complete_first (now : string) (objective_id : string)
    (objectives : list Objective.t) : option (Objective.t * list Objective.t) :=
  match objectives with
  | [] => None
  | obj :: rest =>
      if decide (Objective.id obj = objective_id)
      then Some (obj, Objective.complete now obj :: rest)
      else '(found, rest') ← complete_first now objective_id rest;
           Some (found, obj :: rest')
  end.

Definition complete_objective (now1 now2 : string) (io : write_outcome)
    (project_id objective_id : string) : M bool :=
  ps ← gets projects;
  match PyDict.get project_id ps with
  | None => mret false
  | Some project0 =>
      match complete_first now1 objective_id
              (ProjectConfig.objectives project0) with
      | Some (obj, objectives') =>
          project ← mutate project_id (λ p,
            ProjectConfig.set_last_active now2
              (ProjectConfig.set_objectives objectives' p));
          save_project io project;;
          logger_info ("Completed objective in project "
                       +:+ ProjectConfig.name project +:+ ": "
                       +:+ Objective.title obj);;
          mret true
      | None => mret false
      end
  end.

Definition get_active_projects : M (list ProjectConfig.t) :=
  ps ← gets projects;
  mret (filter (λ p, is_active p = true) (PyDict.values ps)).

(** The set of [get_all_watch_dirs], before [list] puts it in an order of
    its own. *)
Definition get_all_watch_dirs : M (gset string) :=
  active ← get_active_projects;
  mret (list_to_set (active ≫= ProjectConfig.watch_dirs)).

Section Create.

(** [os.path.abspath] *)
Variable abspath : string → string.

(** [watch_dirs] is [None] when absent; [description] defaults to [""] at
    the call. *)
Definition create_project (uuid_hex now1 now2 : string) (io : write_outcome)
    (name root_path : string) (watch_dirs : option (list string))
    (description : string) : M ProjectConfig.t :=
  let project_id := "proj_" +:+ substring 0 12 uuid_hex in
  let watch_dirs := default [root_path] watch_dirs in
  let root_path' := abspath root_path in
  let watch_dirs := abspath <$> watch_dirs in
  let project :=
    ProjectConfig.mk project_id name root_path' watch_dirs ACTIVE now1 now2
      description ProjectConfig.default_file_extensions [] [] ∅ in
  store_project project_id project;;
  save_project io project;;
  ps ← gets projects;
  (if bool_decide (length ps = 1)
   then set_focused_project_id (Some project_id)
   else mret ());;
  logger_info ("Created project: " +:+ name +:+ " (" +:+ project_id +:+ ")");;
  mret project.

End Create.

(** ** [export_context] *)

(** [sorted(l, key=key, reverse=True)]: descending by [key], strings
    compared as Python compares them, and stable: elements of equal key stay
    in the order they have in [l]. There is one such list, whatever the
    sorting algorithm. *)
Section Sorted.
Context {A : Type} (key : A → string).

Fixpoint insert_desc (x : A) (l : list A) : list A :=
  match l with
  | [] => [x]
  | y :: l' =>
      if (key x <? key y)%string then y :: insert_desc x l'
      else x :: y :: l'
  end.

Definition sorted_desc (l : list A) : list A := foldr insert_desc [] l.
End Sorted.

Module Ctx.
Record project := {
  p_id : string;
  p_name : string;
  p_description : string;
  p_root_path : string;
  p_status : string;
  p_last_active : string
}.
Record decision := {
  d_decision : string;
  d_reasoning : string;
  d_timestamp : string;
  d_tags : list string
}.
Record objective := {
  o_title : string;
  o_description : string;
  o_priority : string;
  o_created_at : string
}.
Record statistics := {
  total_decisions : nat;
  total_objectives : nat;
  completed_objectives : nat;
  watch_directories : nat
}.
Record context := {
  the_project : project;
  recent_decisions : list decision;
  pending_objectives : list objective;
  the_statistics : statistics
}.

(** The dictionary [export_context] returns: [{}] or the four entries. *)
Inductive document :=
| Empty
| Filled (c : context).

Definition of_decision (d : Decision.t) : decision :=
  {| d_decision := Decision.decision d; d_reasoning := Decision.reasoning d;
     d_timestamp := Decision.timestamp d; d_tags := Decision.tags d |}.

Definition of_objective (o : Objective.t) : objective :=
  {| o_title := Objective.title o; o_description := Objective.description o;
     o_priority := Objective.priority o;
     o_created_at := Objective.created_at o |}.
End Ctx.

Definition is_completed (o : Objective.t) : bool :=
  bool_decide (Objective.status o = "completed").

Definition export_context (project_id : string) : M Ctx.document :=
  ps ← gets projects;
  match PyDict.get project_id ps with
  | None => mret Ctx.Empty
  | Some project =>
      let recent_decisions :=
        take 10 (sorted_desc Decision.timestamp (ProjectConfig.decisions project)) in
      let pending_objectives :=
        filter (λ o, is_completed o = false) (ProjectConfig.objectives project) in
      mret (Ctx.Filled
        {| Ctx.the_project :=
             {| Ctx.p_id := ProjectConfig.project_id project;
                Ctx.p_name := ProjectConfig.name project;
                Ctx.p_description := ProjectConfig.description project;
                Ctx.p_root_path := ProjectConfig.root_path project;
                Ctx.p_status := Status.value (ProjectConfig.status project);
                Ctx.p_last_active := ProjectConfig.last_active project |};
           Ctx.recent_decisions := Ctx.of_decision <$> recent_decisions;
           Ctx.pending_objectives := Ctx.of_objective <$> pending_objectives;
           Ctx.the_statistics :=
             {| Ctx.total_decisions := length (ProjectConfig.decisions project);
                Ctx.total_objectives := length (ProjectConfig.objectives project);
                Ctx.completed_objectives :=
                  length (filter (λ o, is_completed o = true)
                            (ProjectConfig.objectives project));
                Ctx.watch_directories :=
                  length (ProjectConfig.watch_dirs project) |} |})
  end.

(** ** [get_project_summary] *)

Module Summary.
Record row := {
  r_id : string;
  r_name : string;
  r_status : string;
  r_last_active : string;
  objectives_pending : nat;
  r_total_decisions : nat
}.
Record t := {
  total_projects : nat;
  active_projects : nat;
  paused_projects : nat;
  archived_projects : nat;
  focused_project : option string;
  rows : list row
}.

Definition count (s : ProjectStatus) (ps : list ProjectConfig.t) : nat :=
  length (filter (λ p, ProjectConfig.status p = s) ps).

Definition of_project (p : ProjectConfig.t) : row :=
  {| r_id := ProjectConfig.project_id p; r_name := ProjectConfig.name p;
     r_status := Status.value (ProjectConfig.status p);
     r_last_active := ProjectConfig.last_active p;
     objectives_pending :=
       length (filter (λ o, is_completed o = false) (ProjectConfig.objectives p));
     r_total_decisions := length (ProjectConfig.decisions p) |}.
End Summary.

Definition get_project_summary : M Summary.t :=
  ps ← gets projects;
  focused ← gets focused_project_id;
  mret {| Summary.total_projects := length ps;
          Summary.active_projects := Summary.count ACTIVE (PyDict.values ps);
          Summary.paused_projects := Summary.count PAUSED (PyDict.values ps);
          Summary.archived_projects := Summary.count ARCHIVED (PyDict.values ps);
          Summary.focused_project := focused;
          Summary.rows := Summary.of_project <$> PyDict.values ps |}.

(** ** Sequences of operations

    A [call] is one call of an operation of the store by its user, with what
    the call draws from the environment. [run] is the world after it,
    whether it returned or raised. *)

Inductive call :=
| CreateProject (uuid_hex now1 now2 name root_path : string)
    (watch_dirs : option (list string)) (description : string)
| GetProject (project_id : string)
| GetFocusedProject
| SetFocus (now project_id : string)
| UpdateStatus (now project_id : string) (status : ProjectStatus)
| PauseProject (now project_id : string)
| ResumeProject (now project_id : string)
| ArchiveProject (now project_id : string)
| AddDecision (uuid_hex now1 now2 project_id decision reasoning : string)
    (tags : option (list string))
| AddObjective (uuid_hex now1 now2 project_id title description priority : string)
| CompleteObjective (now1 now2 project_id objective_id : string)
| GetActiveProjects
| GetAllWatchDirs
| ExportContext (project_id : string)
| GetProjectSummary.

(** The outcome of a call, its value forgotten. *)
Definition forget {A} (m : M A) : M () := m;; mret ().

Section Run.

Variable abspath : string → string.

Definition exec (io : write_outcome) (c : call) : M () :=
  match c with
  | CreateProject u t1 t2 name root_path watch_dirs description =>
      forget (create_project abspath u t1 t2 io name root_path watch_dirs
                description)
  | GetProject pid => forget (get_project pid)
  | GetFocusedProject => forget get_focused_project
  | SetFocus t pid => forget (set_focus t io pid)
  | UpdateStatus t pid st => forget (update_status t io pid st)
  | PauseProject t pid => forget (pause_project t io pid)
  | ResumeProject t pid => forget (resume_project t io pid)
  | ArchiveProject t pid => forget (archive_project t io pid)
  | AddDecision u t1 t2 pid decision reasoning tags =>
      forget (add_decision u t1 t2 io pid decision reasoning tags)
  | AddObjective u t1 t2 pid title description priority =>
      forget (add_objective u t1 t2 io pid title description priority)
  | CompleteObjective t1 t2 pid oid =>
      forget (complete_objective t1 t2 io pid oid)
  | GetActiveProjects => forget get_active_projects
  | GetAllWatchDirs => forget get_all_watch_dirs
  | ExportContext pid => forget (export_context pid)
  | GetProjectSummary => forget get_project_summary
  end.

Definition run (io : write_outcome) (c : call) (w : world) : world :=
  (exec io c w).2.

Inductive step (w : world) : world → Prop :=
| step_call io c : step w (run io c w).

(** The states of a store: those after [ProjectManager(config_dir)], and
    those after a call in such a state. *)
Inductive reachable : world → Prop :=
| reachable_init listing disk : reachable (init listing disk).2
| reachable_step w w' : reachable w → step w w' → reachable w'.

Fixpoint run_all (cs : list (write_outcome * call)) (w : world) : world :=
  match cs with
  | [] => w
  | (io, c) :: cs' => run_all cs' (run io c w)
  end.

(** The unique-id source is collision resistant: the id [create_project]
    derives from its draw is the id of no project of the store. *)
Definition fresh_draw (c : call) (w : world) : Prop :=
  match c with
  | CreateProject u _ _ _ _ _ _ =>
      PyDict.get ("proj_" +:+ substring 0 12 u) (projects w) = None
  | _ => True
  end.

Fixpoint fresh_draws (cs : list (write_outcome * call)) (w : world) : Prop :=
  match cs with
  | [] => True
  | (io, c) :: cs' => fresh_draw c w ∧ fresh_draws cs' (run io c w)
  end.

End Run.

(** ** Vocabulary of the properties *)

(** Every record of the dict sits under its own [project_id]. *)
Definition keyed (ps : list (string * ProjectConfig.t)) : Prop :=
  ∀ k p, (k, p) ∈ ps → ProjectConfig.project_id p = k.

(** The focus is unset, or it is the [project_id] of a record of the dict. *)
Definition focus_ok (w : world) : Prop :=
  match focused_project_id w with
  | None => True
  | Some f =>
      ∃ p, PyDict.get f (projects w) = Some p ∧ ProjectConfig.project_id p = f
  end.

(** The record a file parses to, when [json.load] and [from_dict] both
    accept it. *)
Definition parse (disk : gmap string content) (config_file : string)
  : option ProjectConfig.t :=
  match disk !! config_file with
  | Some (Document v) =>
      match from_dict v with
      | Ok p => Some p
      | Raise _ => None
      end
  | _ => None
  end.



(** The records of the files of [listing] that parse, in its order. *)
Definition parsed (disk : gmap string content) (listing : list string)
  : list ProjectConfig.t :=
  omap (parse disk) listing.

(** The assignments [self.projects[p.project_id] = p], for the records of
    [l] in their order. *)
Definition load_records (l : list ProjectConfig.t)
    (ps : list (string * ProjectConfig.t)) : list (string * ProjectConfig.t) :=
  foldl (λ ps p, PyDict.setitem (ProjectConfig.project_id p) p ps) ps l.

(** The file of the record holds its serialization, and nothing else. *)
Definition persisted (w : world) (p : ProjectConfig.t) : Prop :=
  files w !! config_file_of (ProjectConfig.project_id p)
  = Some (Document (PDict (to_dict p))).

(** Every record of the in-memory map is on disk as it is in memory. *)
Definition in_sync (w : world) : Prop :=
  ∀ k p, PyDict.get k (projects w) = Some p → persisted w p.

(** The focus names a key of the dict. *)
Definition focus_known (w : world) : Prop :=
  ∀ f, focused_project_id w = Some f → is_Some (PyDict.get f (projects w)).

(** The invariant of the attributes of the manager. *)
Definition inv (w : world) : Prop := keyed (projects w) ∧ focus_known w.

(** The contract of the unique-id source: [uuid.uuid4().hex] is a string of
    32 hexadecimal digits in lower case. *)
Definition is_hex_digit (c : ascii) : bool :=
  bool_decide (c ∈ list_ascii_of_string "0123456789abcdef").

Definition is_hex (s : string) : Prop :=
  Forall (λ c, is_hex_digit c = true) (list_ascii_of_string s).

Definition is_uuid_hex (s : string) : Prop :=
  String.length s = 32 ∧ is_hex s.







(** Of a call that took the store from [w] to [w']: every record it put
    or changed is on disk in full, and the records are all on disk if they
    were. *)
Definition written (w w' : world) : Prop :=
  (∀ k p', PyDict.get k (projects w') = Some p' →
           PyDict.get k (projects w) ≠ Some p' → persisted w' p') ∧
  (in_sync w → in_sync w').

(** The fields no operation assigns after the creation of the record. *)
Definition same_identity (p p' : ProjectConfig.t) : Prop :=
  ProjectConfig.project_id p' = ProjectConfig.project_id p ∧
  ProjectConfig.name p' = ProjectConfig.name p ∧
  ProjectConfig.root_path p' = ProjectConfig.root_path p ∧
  ProjectConfig.watch_dirs p' = ProjectConfig.watch_dirs p ∧
  ProjectConfig.created_at p' = ProjectConfig.created_at p ∧
  ProjectConfig.description p' = ProjectConfig.description p ∧
  ProjectConfig.file_extensions p' = ProjectConfig.file_extensions p ∧
  ProjectConfig.metadata p' = ProjectConfig.metadata p.

Create HintDb store.
#[global] Hint Unfold mbind M_bind mret M_ret gets raise lift set_projects
  set_focused_project_id write_file logger_info logger_error store_project
  mutate save_project forget try_except read_json : store.

(** Runs a computation of [M] on the world it is applied to. *)
Ltac unfold_M := repeat (progress (autounfold with store; cbn)).

Ltac unfold_op :=
  unfold run, exec, create_project, get_project, get_focused_project,
    set_focus, pause_project, resume_project, archive_project,
    update_status, add_decision, add_objective, complete_objective,
    get_active_projects, get_all_watch_dirs, export_context,
    get_project_summary.

(** Splits a call in the world [w] on what decides its path: whether the
    project is known, whether an objective matches, how the write ends. *)
Ltac split_call w :=
  unfold_op; unfold_M;
  repeat match goal with
    | |- context [PyDict.get ?k (projects w)] =>
        let E := fresh "Hget" in
        destruct (PyDict.get k (projects w)) eqn:E; unfold_M
    | |- context [complete_first ?t ?o ?l] =>
        let E := fresh "Hfirst" in
        destruct (complete_first t o l) as [[? ?]|] eqn:E; unfold_M
    | |- context [truthy ?f] => destruct (truthy f); unfold_M
    | io : write_outcome |- _ => destruct io; unfold_M
    | |- context [bool_decide ?P] => destruct (bool_decide P); unfold_M
    end.

(** ** Sample data *)

Module Samples.
(** A record file written by hand: the fields without default only. *)
Definition record_file (project_id name status : string) : content :=
  Document (PDict (
    <[ "project_id" := PStr project_id ]>
    (<[ "name" := PStr name ]>
    (<[ "root_path" := PStr "/srv/app" ]>
    (<[ "watch_dirs" := PList [PStr "/srv/app"] ]>
    (<[ "status" := PStr status ]>
    (<[ "created_at" := PStr "2025-03-01T09:00:00" ]>
    (<[ "last_active" := PStr "2025-03-02T18:30:00" ]> ∅)))))))).

(** The record [record_file] parses to. *)
Definition record (project_id name : string) (status : ProjectStatus)
  : ProjectConfig.t :=
  ProjectConfig.mk project_id name "/srv/app" ["/srv/app"] status
    "2025-03-01T09:00:00" "2025-03-02T18:30:00" ""
    ProjectConfig.default_file_extensions [] [] ∅.

(** One valid and one malformed file. *)
Definition mixed_disk : gmap string content :=
  <[ "alpha.json" := record_file "proj_0123456789ab" "Alpha" "active" ]>
  (<[ "broken.json" := Malformed "{ project_id: " ]> ∅).


(** A record file whose [project_id] is the empty string. *)
Definition anonymous_disk : gmap string content :=
  <[ "draft.json" := record_file "" "Draft" "active" ]> ∅.

Definition a_uuid : string := "9f8e7d6c5b4a39281706f5e4d3c2b1a0".
Definition another_uuid : string := "0a1b2c3d4e5f60718293a4b5c6d7e8f9".

(** The store after [create("Alpha", "/tmp/alpha")] in an empty directory,
    paths being absolute already. *)
Definition alpha_world : world :=
  (create_project id a_uuid "2025-03-03T08:00:00" "2025-03-03T08:00:01"
     WriteOk "Alpha" "/tmp/alpha" None "" (World [] None ∅ [])).2.

(** Then [addObjective(id, "Ship v1")]. *)
Definition objective_world : world :=
  (add_objective another_uuid "2025-03-03T09:00:00" "2025-03-03T09:00:01"
     WriteOk "proj_9f8e7d6c5b4a" "Ship v1" "" "medium" alpha_world).2.

(** Fifteen decisions, not in the order of their timestamps. *)
Definition decision_at (day : string) : Decision.t :=
  Decision.mk ("dec_000000" +:+ day) ("Decision of day " +:+ day) ""
    ("2025-04-" +:+ day +:+ "T12:00:00") [].

Definition fifteen_decisions : list Decision.t :=
  decision_at <$> ["07"; "01"; "15"; "03"; "11"; "05"; "09"; "13"; "02";
                   "14"; "04"; "12"; "06"; "10"; "08"].

Definition busy_project : ProjectConfig.t :=
  ProjectConfig.set_decisions fifteen_decisions
    (record "proj_0123456789ab" "Alpha" ACTIVE).

Definition busy_world : world :=
  World [("proj_0123456789ab", busy_project)] (Some "proj_0123456789ab") ∅ [].

(** Then [completeObjective(id, objId)]. *)
Definition completed_world : world :=
  (complete_objective "2025-03-03T10:00:00" "2025-03-03T10:00:01" WriteOk
     "proj_9f8e7d6c5b4a" "obj_0a1b2c3d" objective_world).2.
End Samples.

(** * Properties *)

(** ** Round trip *)

Section RoundTrip.

Lemma bind_Ok {A B} (a : A) (f : A → result B) : Ok a ≫= f = f a.
Proof. reflexivity. Qed.

Lemma status_of_value (s : ProjectStatus) :
  Status.of_value (PStr (Status.value s)) = Ok s.
Proof. by destruct s. Qed.

Lemma traverse_fmap {A B C} (g : A → B) (f : B → result C) (l : list A) :
  traverse f (g <$> l) = traverse (f ∘ g) l.
Proof.
  induction l as [|a l IH]; [done|].
  rewrite fmap_cons. simpl. by rewrite IH.
Qed.

Lemma traverse_id {A} (f : A → result A) (l : list A) :
  (∀ a, f a = Ok a) → traverse f l = Ok l.
Proof.
  intros Hf. induction l as [|a l IH]; simpl; [done|].
  by rewrite Hf, IH.
Qed.

Lemma traverse_as_str (field : string) (l : list string) :
  traverse (as_str field) (PStr <$> l) = Ok l.
Proof. rewrite traverse_fmap. by apply traverse_id. Qed.

Lemma Decision_init_asdict (d : Decision.t) :
  Decision_init (asdict_decision d) = Ok d.
Proof.
  destruct d as [i de r ts tg].
  unfold Decision_init, asdict_decision; simpl.
  change (optional _ "tags" PNone) with (PList (PStr <$> tg)).
  change (only_fields _ _) with (Ok ()); simpl.
  change (required _ "id") with (Ok (PStr i)).
  change (required _ "decision") with (Ok (PStr de)).
  change (required _ "reasoning") with (Ok (PStr r)).
  change (required _ "timestamp") with (Ok (PStr ts)).
  simpl. by rewrite traverse_as_str.
Qed.

Lemma Objective_init_asdict (o : Objective.t) :
  Objective_init (asdict_objective o) = Ok o.
Proof.
  destruct o as [i ti de cr co st pr].
  unfold Objective_init, asdict_objective; simpl.
  change (only_fields _ _) with (Ok ()); simpl.
  change (required _ "id") with (Ok (PStr i)).
  change (required _ "title") with (Ok (PStr ti)).
  change (required _ "description") with (Ok (PStr de)).
  change (required _ "created_at") with (Ok (PStr cr)).
  change (optional _ "completed_at" _) with (py_opt_str co).
  change (optional _ "status" _) with (PStr st).
  change (optional _ "priority" _) with (PStr pr).
  simpl. by destruct co.
Qed.

Lemma traverse_splat {A} (init : gmap string pyval → result A)
    (asdict : A → gmap string pyval) (l : list A) :
  (∀ a, init (asdict a) = Ok a) →
  traverse (splat init) ((PDict ∘ asdict) <$> l) = Ok l.
Proof.
  intros Hinit. rewrite traverse_fmap. apply traverse_id.
  intros a. simpl. apply Hinit.
Qed.



End RoundTrip.

(** ** Insertion-ordered dictionaries *)

Section PyDictFacts.
Context {V : Type}.
Implicit Types (d : list (string * V)) (k : string) (v : V).

Lemma get_setitem d k k' v :
  PyDict.get k' (PyDict.setitem k v d)
  = if decide (k = k') then Some v else PyDict.get k' d.
Proof.
  induction d as [|[k0 v0] d IH]; simpl.
  - repeat case_decide; congruence.
  - repeat (case_decide; simpl); try congruence.
Qed.

Lemma get_setitem_eq d k v : PyDict.get k (PyDict.setitem k v d) = Some v.
Proof. rewrite get_setitem. by case_decide. Qed.

Lemma get_setitem_ne d k k' v :
  k ≠ k' → PyDict.get k' (PyDict.setitem k v d) = PyDict.get k' d.
Proof. intros. rewrite get_setitem. by case_decide. Qed.

Lemma get_Some_elem d k v : PyDict.get k d = Some v → (k, v) ∈ d.
Proof.
  induction d as [|[k0 v0] d IH]; simpl; [done|].
  case_decide; intros Hg.
  - injection Hg as ->. subst. left.
  - right. by apply IH.
Qed.

Lemma elem_get_is_Some d k v : (k, v) ∈ d → is_Some (PyDict.get k d).
Proof.
  induction d as [|[k0 v0] d IH]; simpl.
  - by intros ?%elem_of_nil.
  - intros [Heq|Hin]%elem_of_cons; case_decide; eauto.
    congruence.
Qed.

Lemma elem_setitem d k v k' v' :
  (k', v') ∈ PyDict.setitem k v d → (k', v') = (k, v) ∨ (k', v') ∈ d.
Proof.
  induction d as [|[k0 v0] d IH]; simpl.
  - intros ?%list_elem_of_singleton. by left.
  - case_decide; subst.
    + intros [Heq|Hin]%elem_of_cons; [by left|]. right. by right.
    + intros [Heq|Hin]%elem_of_cons; [right; rewrite Heq; by left|].
      destruct (IH Hin); [by left|]. right. by right.
Qed.

Lemma length_setitem_known d k v :
  is_Some (PyDict.get k d) → length (PyDict.setitem k v d) = length d.
Proof.
  induction d as [|[k0 v0] d IH]; simpl.
  - by intros [? ?].
  - case_decide; simpl; [done|]. intros. by rewrite IH.
Qed.

Lemma setitem_nil k v : PyDict.setitem k v [] = [(k, v)].
Proof. done. Qed.

Lemma elem_values d v : v ∈ PyDict.values d → ∃ k, (k, v) ∈ d.
Proof.
  unfold PyDict.values. intros ([k v'] & -> & Hin)%list_elem_of_fmap.
  by exists k.
Qed.
End PyDictFacts.

(** ** Loading *)

Section Loading.

Lemma load_config_file_eq (config_file : string) (w : world) :
  load_config_file config_file w =
  (Ok (),
   match files w !! config_file with
   | Some (Document v) =>
       match from_dict v with
       | Ok p =>
           World (PyDict.setitem (ProjectConfig.project_id p) p (projects w))
             (focused_project_id w) (files w)
             (log w ++ [Info ("Loaded project: " +:+ ProjectConfig.name p
                              +:+ " (" +:+ ProjectConfig.project_id p +:+ ")")])
       | Raise e =>
           World (projects w) (focused_project_id w) (files w)
             (log w ++ [Error config_file e])
       end
   | Some (Malformed _) =>
       World (projects w) (focused_project_id w) (files w)
         (log w ++ [Error config_file JSONDecodeError])
   | None =>
       World (projects w) (focused_project_id w) (files w)
         (log w ++ [Error config_file FileNotFoundError])
   end).
Proof.
  unfold load_config_file. unfold_M.
  destruct (files w !! config_file) as [[text|v]|]; unfold_M; try done.
  destruct (from_dict v); by unfold_M.
Qed.

Lemma for_each_cons {A} (a : A) (l : list A) (body : A → M ()) (w : world) :
  (∀ w0, (body a w0).1 = Ok ()) →
  for_each (a :: l) body w = for_each l body (body a w).2.
Proof.
  intros Hok. simpl. unfold mbind, M_bind.
  specialize (Hok w). destruct (body a w) as [[[]|e] w']; simpl in *; done.
Qed.

Lemma load_config_file_ok f w : (load_config_file f w).1 = Ok ().
Proof. by rewrite load_config_file_eq. Qed.

Lemma for_each_load_ok listing w :
  (for_each listing load_config_file w).1 = Ok ().
Proof.
  revert w. induction listing as [|f l IH]; intros w; [done|].
  rewrite for_each_cons by apply load_config_file_ok. apply IH.
Qed.


End Loading.

(** ** The invariant of the store *)

Section Invariant.

Variable abspath : string → string.

Lemma keyed_nil : keyed [].
Proof. by intros k p ?%elem_of_nil. Qed.

Lemma keyed_setitem ps k p :
  keyed ps → ProjectConfig.project_id p = k → keyed (PyDict.setitem k p ps).
Proof.
  intros Hk Hp k' p' [Heq|Hin]%elem_setitem; [|by apply Hk].
  by injection Heq as -> ->.
Qed.

Lemma keyed_get ps k p :
  keyed ps → PyDict.get k ps = Some p → ProjectConfig.project_id p = k.
Proof. intros Hk Hg. by apply Hk, get_Some_elem. Qed.

Lemma inv_focus_ok w : inv w → focus_ok w.
Proof.
  intros [Hk Hf]. unfold focus_ok.
  destruct (focused_project_id w) as [f|] eqn:E; [|done].
  destruct (Hf f E) as [p Hp]. exists p. eauto using keyed_get.
Qed.

Lemma known_setitem (ps : list (string * ProjectConfig.t)) k p f :
  is_Some (PyDict.get f ps) → is_Some (PyDict.get f (PyDict.setitem k p ps)).
Proof. intros. rewrite get_setitem. by case_decide. Qed.

(** The two ways a call changes the attributes of the manager. *)
Lemma inv_store w ps' f' fs' lg' k p :
  inv w → ProjectConfig.project_id p = k →
  ps' = PyDict.setitem k p (projects w) →
  (f' = focused_project_id w ∨ f' = Some k) →
  inv (World ps' f' fs' lg').
Proof.
  intros [Hk Hf] Hp -> Hfoc. split; simpl.
  - by apply keyed_setitem.
  - intros f; simpl; intros ->. destruct Hfoc as [Hfoc| [= ->]].
    + by apply known_setitem, Hf.
    + rewrite get_setitem_eq. eauto.
Qed.

Lemma inv_same w f' fs' lg' :
  inv w → (f' = focused_project_id w ∨ ∃ k, f' = Some k ∧ is_Some (PyDict.get k (projects w))) →
  inv (World (projects w) f' fs' lg').
Proof.
  intros [Hk Hf] Hfoc. split; simpl; [done|].
  intros f; simpl; intros ->.
  destruct Hfoc as [Hfoc|(k & [= ->] & Hs)]; [|done].
  by apply Hf.
Qed.

Lemma inv_load_config_file f w : inv w → inv (load_config_file f w).2.
Proof.
  intros Hinv. rewrite load_config_file_eq. simpl.
  destruct (files w !! f) as [[text|v]|].
  - apply inv_same; auto.
  - destruct (from_dict v) as [p|e].
    + eapply inv_store; eauto.
    + apply inv_same; auto.
  - apply inv_same; auto.
Qed.

Lemma inv_for_each_load listing w :
  inv w → inv (for_each listing load_config_file w).2.
Proof.
  revert w. induction listing as [|f l IH]; intros w Hinv; [done|].
  rewrite for_each_cons by apply load_config_file_ok.
  by apply IH, inv_load_config_file.
Qed.

Lemma inv_load_all_projects listing w :
  inv w → inv (load_all_projects listing w).2.
Proof.
  intros Hinv. unfold load_all_projects. unfold mbind at 1. unfold M_bind.
  pose proof (for_each_load_ok listing w) as Hok.
  pose proof (inv_for_each_load listing w Hinv) as Hinv1.
  destruct (for_each listing load_config_file w) as [[[]|e] w1];
    simpl in Hok, Hinv1; [|done].
  unfold_M.
  destruct (negb (truthy (focused_project_id w1)) && _); [|done].
  destruct (filter _ _) as [|p l] eqn:E; [done|]. unfold_M.
  apply inv_same; [done|]. right. eexists; split; [done|].
  assert (p ∈ filter (λ p, is_active p = true) (PyDict.values (projects w1)))
    as [_ (k & Hin)%elem_values]%list_elem_of_filter by (rewrite E; left).
  destruct Hinv1 as [Hk _]. rewrite (Hk _ _ Hin).
  by eapply elem_get_is_Some.
Qed.

Lemma inv_init listing disk : inv (init listing disk).2.
Proof.
  apply inv_load_all_projects. split; [apply keyed_nil|]. by intros f [=].
Qed.

End Invariant.

Section InvariantRun.

Variable abspath : string → string.

Lemma inv_run io c w : inv w → inv (run abspath io c w).
Proof.
  intros Hinv. pose proof Hinv as [Hk Hf].
  destruct c; split_call w; try done;
    try (eapply inv_store; eauto using keyed_get; fail);
    try (eapply inv_store; [done| |done|auto]; simpl; eauto using keyed_get).
Qed.

Lemma reachable_inv w : reachable abspath w → inv w.
Proof.
  induction 1 as [listing disk|w w' _ IH [io c]].
  - apply inv_init.
  - by apply inv_run.
Qed.

End InvariantRun.

(** C9 — focus pointer invariant. In every state the store reaches from its
    initialization by calls of its operations, [focused_project_id] is unset
    or is the [project_id] of a record of the in-memory map: being one
    optional id it is never more than one focus, and it does not dangle. *)
Theorem focus_pointer_invariant (abspath : string → string) (w : world) :
  reachable abspath w → focus_ok w.
Proof. intros Hr. by eapply inv_focus_ok, reachable_inv. Qed.

(** ** What the load leaves in memory *)

Section Loaded.

Implicit Types (ps : list (string * ProjectConfig.t)) (l : list ProjectConfig.t).

Lemma files_load_config_file f w : files (load_config_file f w).2 = files w.
Proof.
  rewrite load_config_file_eq. simpl.
  destruct (files w !! f) as [[?|v]|]; [done| |done]. by destruct (from_dict v).
Qed.

Lemma projects_load_config_file f w :
  projects (load_config_file f w).2 =
  match parse (files w) f with
  | Some p => PyDict.setitem (ProjectConfig.project_id p) p (projects w)
  | None => projects w
  end.
Proof.
  rewrite load_config_file_eq. unfold parse. simpl.
  destruct (files w !! f) as [[?|v]|]; [done| |done]. by destruct (from_dict v).
Qed.

Lemma focused_load_config_file f w :
  focused_project_id (load_config_file f w).2 = focused_project_id w.
Proof.
  rewrite load_config_file_eq. simpl.
  destruct (files w !! f) as [[?|v]|]; [done| |done]. by destruct (from_dict v).
Qed.

Lemma for_each_load_eq listing w :
  let w' := (for_each listing load_config_file w).2 in
  files w' = files w ∧ focused_project_id w' = focused_project_id w ∧
  projects w' = load_records (parsed (files w) listing) (projects w).
Proof.
  revert w. induction listing as [|f listing IH]; intros w; [done|].
  rewrite for_each_cons by apply load_config_file_ok.
  destruct (IH (load_config_file f w).2) as (Hfs & Hfoc & Hps).
  rewrite files_load_config_file in Hfs, Hps.
  rewrite focused_load_config_file in Hfoc.
  rewrite projects_load_config_file in Hps.
  simpl. split_and!; [done..|].
  rewrite Hps. unfold parsed. simpl. by destruct (parse (files w) f).
Qed.

Lemma load_all_projects_world listing w :
  let w1 := (for_each listing load_config_file w).2 in
  ∃ focused,
    load_all_projects listing w
    = (Ok (), World (projects w1) focused (files w1) (log w1)).
Proof.
  unfold load_all_projects. unfold mbind at 1. unfold M_bind.
  pose proof (for_each_load_ok listing w) as Hok.
  destruct (for_each listing load_config_file w) as [[[]|e] w1];
    simpl in Hok; [|done].
  unfold_M. destruct w1 as [ps foc fs lg]; simpl.
  destruct (negb (truthy foc) && _); [|by eexists].
  destruct (filter _ _); by eexists.
Qed.

Lemma load_all_projects_eq listing w :
  let w' := (load_all_projects listing w).2 in
  files w' = files w ∧
  projects w' = load_records (parsed (files w) listing) (projects w).
Proof.
  destruct (load_all_projects_world listing w) as [foc ->].
  destruct (for_each_load_eq listing w) as (Hfs & _ & Hps). by split.
Qed.




Lemma setitem_fresh ps k (p : ProjectConfig.t) :
  PyDict.get k ps = None → PyDict.setitem k p ps = (ps ++ [(k, p)])%list.
Proof.
  induction ps as [|[k0 p0] ps IH]; simpl; [done|].
  case_decide; [done|]. intros Hg. by rewrite IH.
Qed.







End Loaded.

(** ** What [from_dict] accepts *)

Section Accepted.

Lemma bind_Ok_inv {A B} (m : result A) (f : A → result B) (b : B) :
  m ≫= f = Ok b → ∃ a, m = Ok a ∧ f a = Ok b.
Proof. destruct m as [a|e]; [eauto|done]. Qed.

Lemma only_fields_Ok kw fields u :
  only_fields kw fields = Ok u → dom kw ⊆ fields.
Proof.
  unfold only_fields. case_bool_decide; [done|discriminate].
Qed.

Lemma required_Ok kw field v : required kw field = Ok v → kw !! field = Some v.
Proof. unfold required. destruct (kw !! field); by intros [= ->]. Qed.

Lemma as_str_Ok field v s : as_str field v = Ok s → v = PStr s.
Proof. destruct v; simpl; try discriminate. by intros [= ->]. Qed.

Lemma of_value_Ok v s : Status.of_value v = Ok s → v = PStr (Status.value s).
Proof.
  destruct v as [| | | |x| |]; simpl; try discriminate.
  repeat case_decide; subst; intros [= <-]; done.
Qed.

(** A value [from_dict] accepts is a dict of fields of the record, and
    holds the id, the name and the status tag of the record. *)
Lemma from_dict_Ok_inv (data : pyval) (p : ProjectConfig.t) :
  from_dict data = Ok p →
  ∃ m, data = PDict m ∧
       dom m ⊆ ProjectConfig_fields ∧
       m !! "project_id" = Some (PStr (ProjectConfig.project_id p)) ∧
       m !! "name" = Some (PStr (ProjectConfig.name p)) ∧
       m !! "status" = Some (PStr (Status.value (ProjectConfig.status p))).
Proof.
  destruct data as [| | | | | |m]; try discriminate. intros Hfrom.
  exists m. split; [done|]. unfold from_dict in Hfrom.
  apply bind_Ok_inv in Hfrom as (v_status & Hstatus & Hfrom).
  apply bind_Ok_inv in Hfrom as (status & Hof & Hfrom).
  apply bind_Ok_inv in Hfrom as (ds & _ & Hfrom).
  apply bind_Ok_inv in Hfrom as (decisions & _ & Hfrom).
  apply bind_Ok_inv in Hfrom as (os & _ & Hfrom).
  apply bind_Ok_inv in Hfrom as (objectives & _ & Hfrom).
  unfold ProjectConfig_init in Hfrom.
  apply bind_Ok_inv in Hfrom as (u & Hdom%only_fields_Ok & Hfrom).
  apply bind_Ok_inv in Hfrom as (v1 & H1%required_Ok & Hfrom).
  apply bind_Ok_inv in Hfrom as (v2 & H2%required_Ok & Hfrom).
  apply bind_Ok_inv in Hfrom as (v3 & _ & Hfrom).
  apply bind_Ok_inv in Hfrom as (v4 & _ & Hfrom).
  apply bind_Ok_inv in Hfrom as (v5 & _ & Hfrom).
  apply bind_Ok_inv in Hfrom as (v6 & _ & Hfrom).
  apply bind_Ok_inv in Hfrom as (s1 & ->%as_str_Ok & Hfrom).
  apply bind_Ok_inv in Hfrom as (s2 & ->%as_str_Ok & Hfrom).
  apply bind_Ok_inv in Hfrom as (s3 & _ & Hfrom).
  apply bind_Ok_inv in Hfrom as (s4 & _ & Hfrom).
  apply bind_Ok_inv in Hfrom as (s5 & _ & Hfrom).
  apply bind_Ok_inv in Hfrom as (s6 & _ & Hfrom).
  apply bind_Ok_inv in Hfrom as (s7 & _ & Hfrom).
  apply bind_Ok_inv in Hfrom as (s8 & _ & Hfrom).
  apply bind_Ok_inv in Hfrom as (s9 & _ & Hfrom).
  injection Hfrom as <-. simpl.
  apply of_value_Ok in Hof as ->.
  split_and!; try done.
  destruct (m !! "status"); by simplify_eq.
Qed.

End Accepted.

(** ** Loading: C7 and C10 *)

Lemma focus_pointer_invariant_witness :
  let w := run id WriteOk (SetFocus "2025-03-03T08:00:00" "proj_0123456789ab")
             (init ["alpha.json"; "broken.json"] Samples.mixed_disk).2 in
  reachable id w ∧ focus_ok w.
Proof.
  assert (reachable id
            (run id WriteOk (SetFocus "2025-03-03T08:00:00" "proj_0123456789ab")
               (init ["alpha.json"; "broken.json"] Samples.mixed_disk).2))
    as Hr by (eapply reachable_step; [apply reachable_init | apply step_call]).
  split; [exact Hr | exact (focus_pointer_invariant id _ Hr)].
Defined.








(** ** Strings *)

Section Strings.

Lemma length_string_app (s t : string) :
  String.length (s +:+ t) = String.length s + String.length t.
Proof. induction s as [|c s IH]; simpl; [done|]. by rewrite IH. Qed.

Lemma string_app_inj_r (s1 s2 t : string) : s1 +:+ t = s2 +:+ t → s1 = s2.
Proof.
  revert s2. induction s1 as [|c1 s1 IH]; intros [|c2 s2] Heq; simpl in *.
  - done.
  - apply (f_equal String.length) in Heq.
    rewrite ?length_string_app in Heq. simpl in Heq.
    rewrite ?length_string_app in Heq. lia.
  - apply (f_equal String.length) in Heq.
    rewrite ?length_string_app in Heq. simpl in Heq.
    rewrite ?length_string_app in Heq. lia.
  - injection Heq as -> Heq. f_equal. by apply IH.
Qed.

Lemma config_file_of_inj (k1 k2 : string) :
  config_file_of k1 = config_file_of k2 → k1 = k2.
Proof. apply string_app_inj_r. Qed.

Lemma length_substring_0 (n : nat) (s : string) :
  (n ≤ String.length s)%nat → String.length (substring 0 n s) = n.
Proof.
  revert s. induction n as [|n IH]; intros [|c s] Hn; simpl in *;
    try done; try lia.
  rewrite IH; [done|lia].
Qed.

Lemma is_hex_substring_0 (n : nat) (s : string) :
  is_hex s → is_hex (substring 0 n s).
Proof.
  unfold is_hex. revert s.
  induction n as [|n IH]; intros [|c s] Hs; simpl in *;
    try by constructor.
  apply Forall_cons in Hs as [Hc Hs]. constructor; [done|]. by apply IH.
Qed.

End Strings.

(** ** [set_focus] and [create_project] *)

Section FocusAndCreate.

Variable abspath : string → string.

Lemma set_focus_unknown now io pid w :
  PyDict.get pid (projects w) = None → set_focus now io pid w = (Ok false, w).
Proof. intros Hget. unfold set_focus. unfold_M. by rewrite Hget. Qed.

Lemma set_focus_known now pid w p :
  PyDict.get pid (projects w) = Some p →
  set_focus now WriteOk pid w =
  (Ok true,
   World (PyDict.setitem pid (ProjectConfig.set_last_active now p) (projects w))
     (Some pid)
     (<[config_file_of (ProjectConfig.project_id p) :=
          Document (PDict (to_dict (ProjectConfig.set_last_active now p)))]>
        (files w))
     (log w ++ [Info ("Saved project config: " +:+ ProjectConfig.name p);
                Info ("Focused on project: " +:+ ProjectConfig.name p)])).
Proof.
  intros Hget. unfold set_focus. unfold_M. rewrite Hget. unfold_M.
  rewrite Hget. unfold_M. by rewrite <-app_assoc.
Qed.

Lemma truthy_Some (s : string) : s ≠ "" → truthy (Some s) = true.
Proof. intros Hs. unfold truthy. by rewrite bool_decide_eq_false_2. Qed.

Lemma create_project_eq u t1 t2 name root_path watch_dirs description w :
  let project_id := "proj_" +:+ substring 0 12 u in
  let project :=
    ProjectConfig.mk project_id name (abspath root_path)
      (abspath <$> default [root_path] watch_dirs) ACTIVE t1 t2 description
      ProjectConfig.default_file_extensions [] [] ∅ in
  let ps := PyDict.setitem project_id project (projects w) in
  create_project abspath u t1 t2 WriteOk name root_path watch_dirs
    description w =
  (Ok project,
   World ps
     (if bool_decide (length ps = 1) then Some project_id
      else focused_project_id w)
     (<[config_file_of project_id := Document (PDict (to_dict project))]>
        (files w))
     (log w ++ [Info ("Saved project config: " +:+ name);
                Info ("Created project: " +:+ name +:+ " (" +:+ project_id
                      +:+ ")")])).
Proof.
  intros project_id project ps. unfold create_project. unfold_M.
  fold project_id. fold project. fold ps.
  destruct (bool_decide (length ps = 1)); unfold_M; by rewrite <-app_assoc.
Qed.

End FocusAndCreate.

(** C5, as the code has it — [set_focus]. On an unknown id it returns
    [False] without raising and leaves the focus, every record, the files
    and the log as they were. On a known id that is not the empty string,
    when the write succeeds, it returns [True]; afterwards
    [get_focused_project] returns the record whose [project_id] is the
    argument, that record is the former one with [last_active] re-stamped,
    and its file holds its serialization. *)
Theorem set_focus_spec (abspath : string → string) (now project_id : string)
    (w : world) :
  reachable abspath w →
  (PyDict.get project_id (projects w) = None →
   ∀ io, set_focus now io project_id w = (Ok false, w)) ∧
  (∀ p, PyDict.get project_id (projects w) = Some p → project_id ≠ "" →
   ∃ w' p',
     set_focus now WriteOk project_id w = (Ok true, w') ∧
     focused_project_id w' = Some project_id ∧
     get_focused_project w' = (Ok (Some p'), w') ∧
     ProjectConfig.project_id p' = project_id ∧
     p' = ProjectConfig.set_last_active now p ∧
     ProjectConfig.last_active p' = now ∧
     persisted w' p').
Proof.
  intros [Hk _]%reachable_inv. split.
  - intros Hget io. by apply set_focus_unknown.
  - intros p Hget Hne. pose proof (keyed_get _ _ _ Hk Hget) as Hid.
    eexists _, (ProjectConfig.set_last_active now p).
    split; [by apply set_focus_known|]. split_and!; try done.
    + unfold get_focused_project. unfold_M.
      rewrite bool_decide_eq_false_2 by done. simpl.
      by rewrite get_setitem_eq.
    + unfold persisted. simpl. by rewrite lookup_insert_eq.
Qed.

Lemma set_focus_spec_witness :
  let w := (init ["alpha.json"; "broken.json"] Samples.mixed_disk).2 in
  let p := Samples.record "proj_0123456789ab" "Alpha" ACTIVE in
  reachable id w ∧
  PyDict.get "proj_0123456789ab" (projects w) = Some p ∧
  "proj_0123456789ab" ≠ "" ∧
  ∃ w' p',
    set_focus "2025-03-03T08:00:00" WriteOk "proj_0123456789ab" w = (Ok true, w') ∧
    get_focused_project w' = (Ok (Some p'), w') ∧
    ProjectConfig.last_active p' = "2025-03-03T08:00:00".
Proof.
  intros w p.
  assert (reachable id w) as Hr by apply reachable_init.
  assert (PyDict.get "proj_0123456789ab" (projects w) = Some p) as Hget
    by (vm_compute; reflexivity).
  assert ("proj_0123456789ab" ≠ "") as Hne by discriminate.
  destruct (set_focus_spec id "2025-03-03T08:00:00" "proj_0123456789ab" w Hr)
    as [_ Hknown].
  destruct (Hknown p Hget Hne) as (w' & p' & Hset & _ & Hfocused & _ & _ & Hla & _).
  split_and!; [exact Hr | exact Hget | exact Hne |].
  exists w', p'. split_and!; [exact Hset | exact Hfocused | exact Hla].
Defined.

(** C5, as the specification states it, fails on the empty id: a record file that
    carries the empty string as [project_id] is loaded under that key;
    [set_focus] on it returns [True], and [get_focused_project] then
    returns [None]. *)
Lemma set_focus_empty_id :
  let w := (init ["draft.json"] Samples.anonymous_disk).2 in
  let r := set_focus "2025-03-03T08:00:00" WriteOk "" w in
  PyDict.get "" (projects w) = Some (Samples.record "" "Draft" ACTIVE) ∧
  r.1 = Ok true ∧
  focused_project_id r.2 = Some "" ∧
  (get_focused_project r.2).1 = Ok None.
Proof. vm_compute. done. Qed.

(** C6, as the code has it — [create_project]. For a draw of the unique-id
    source and a write that succeeds, the call returns a record whose id is
    [proj_] followed by the first 12 hexadecimal digits of the draw, whose
    status is active, whose [root_path] is the absolute form of the argument
    and whose [watch_dirs] are the absolute forms of the supplied ones, or
    of [root_path] alone when none is supplied; the record is in the map
    under its id and its file holds its serialization; the records under
    other ids are as before. The code does not look whether the id is in
    use: when it is not, the record is a new entry, the last of the map;
    when it is, the record takes the place of the stored one and the map
    has as many entries as before. When the map was empty before the call,
    the record is the focused project. *)
Theorem create_project_spec (abspath : string → string)
    (uuid_hex now1 now2 name root_path : string)
    (watch_dirs : option (list string)) (description : string) (w : world) :
  is_uuid_hex uuid_hex →
  ∃ p w',
    create_project abspath uuid_hex now1 now2 WriteOk name root_path
      watch_dirs description w = (Ok p, w') ∧
    (∃ h, ProjectConfig.project_id p = "proj_" +:+ h ∧
          h = substring 0 12 uuid_hex ∧ String.length h = 12 ∧ is_hex h) ∧
    ProjectConfig.status p = ACTIVE ∧
    ProjectConfig.root_path p = abspath root_path ∧
    ProjectConfig.watch_dirs p
    = match watch_dirs with
      | Some dirs => abspath <$> dirs
      | None => [abspath root_path]
      end ∧
    PyDict.get (ProjectConfig.project_id p) (projects w') = Some p ∧
    persisted w' p ∧
    (∀ k, k ≠ ProjectConfig.project_id p →
          PyDict.get k (projects w') = PyDict.get k (projects w)) ∧
    (PyDict.get (ProjectConfig.project_id p) (projects w) = None →
     projects w' = (projects w ++ [(ProjectConfig.project_id p, p)])%list) ∧
    (is_Some (PyDict.get (ProjectConfig.project_id p) (projects w)) →
     length (projects w') = length (projects w)) ∧
    (projects w = [] → focused_project_id w' = Some (ProjectConfig.project_id p)).
Proof.
  intros [Hlen Hhex]. eexists _, _.
  split; [apply create_project_eq|]. simpl. split_and!; try done.
  - eexists. split_and!; [done..| |].
    + apply length_substring_0. rewrite Hlen. lia.
    + by apply is_hex_substring_0.
  - by destruct watch_dirs.
  - apply get_setitem_eq.
  - unfold persisted. simpl. by rewrite lookup_insert_eq.
  - intros k Hk. by apply get_setitem_ne.
  - apply setitem_fresh.
  - apply length_setitem_known.
  - by intros ->.
Qed.

Lemma create_project_spec_witness :
  is_uuid_hex Samples.a_uuid ∧
  ∃ p w',
    create_project id Samples.a_uuid "2025-03-03T08:00:00" "2025-03-03T08:00:01"
      WriteOk "Alpha" "/tmp/alpha" None "" (World [] None ∅ []) = (Ok p, w') ∧
    ProjectConfig.project_id p = "proj_9f8e7d6c5b4a" ∧
    ProjectConfig.watch_dirs p = ["/tmp/alpha"] ∧
    projects w' = [("proj_9f8e7d6c5b4a", p)] ∧
    focused_project_id w' = Some "proj_9f8e7d6c5b4a".
Proof.
  assert (is_uuid_hex Samples.a_uuid) as Hu.
  { split; [reflexivity|]. unfold is_hex. vm_compute.
    repeat (constructor; [reflexivity|]). constructor. }
  destruct (create_project_spec id Samples.a_uuid "2025-03-03T08:00:00"
              "2025-03-03T08:00:01" "Alpha" "/tmp/alpha" None ""
              (World [] None ∅ []) Hu)
    as (p & w' & Hc & (h & Hid & -> & _) & _ & _ & Hwd & _ & _ & _ & Hnew & _
        & Hfoc).
  split; [exact Hu|]. exists p, w'.
  split_and!; [exact Hc | exact Hid | exact Hwd | |].
  - rewrite (Hnew eq_refl). simpl. f_equal. f_equal. exact Hid.
  - rewrite (Hfoc eq_refl). f_equal. exact Hid.
Defined.

(** C6, as the specification states it, fails: the id is not a fresh one at
    every call. After [create("Alpha", "/tmp/alpha")] in an empty directory,
    a second [create] whose draw starts with the same twelve digits returns
    a record under the id of the stored project, which it replaces in the
    map. *)
Lemma create_project_reuses_id :
  let w := run id WriteOk
             (CreateProject Samples.a_uuid "2025-03-03T08:00:00"
                "2025-03-03T08:00:01" "Alpha" "/tmp/alpha" None "")
             (init [] ∅).2 in
  let r := create_project id Samples.a_uuid "2025-03-07T08:00:00"
             "2025-03-07T08:00:01" WriteOk "Gamma" "/tmp/gamma" None "" w in
  is_uuid_hex Samples.a_uuid ∧
  reachable id w ∧
  (∃ old, PyDict.get "proj_9f8e7d6c5b4a" (projects w) = Some old ∧
          ProjectConfig.name old = "Alpha") ∧
  ∃ p, r.1 = Ok p ∧
       ProjectConfig.project_id p = "proj_9f8e7d6c5b4a" ∧
       ProjectConfig.name p = "Gamma" ∧
       projects r.2 = [("proj_9f8e7d6c5b4a", p)].
Proof.
  split_and!.
  - split; [reflexivity|]. unfold is_hex. vm_compute.
    repeat (constructor; [reflexivity|]). constructor.
  - eapply reachable_step; [apply reachable_init | apply step_call].
  - vm_compute. eauto.
  - vm_compute. eauto 10.
Qed.

(** ** [export_context] *)

Section SortedDesc.
Context {A : Type} (key : A → string).




Lemma insert_desc_perm (x : A) (l : list A) : insert_desc key x l ≡ₚ x :: l.
Proof.
  induction l as [|y l IH]; simpl; [done|].
  destruct (key x <? key y)%string; [|done].
  rewrite IH. apply Permutation_swap.
Qed.

Lemma sorted_desc_perm (l : list A) : sorted_desc key l ≡ₚ l.
Proof.
  induction l as [|x l IH]; simpl; [done|].
  by rewrite insert_desc_perm, IH.
Qed.



End SortedDesc.


(** ** [complete_objective] *)

Section CompleteObjective.

Implicit Types (os : list Objective.t) (o : Objective.t).



Lemma complete_first_found now oid os i o :
  list_find (λ o, Objective.id o = oid) os = Some (i, o) →
  complete_first now oid os
  = Some (o, <[i := Objective.complete now o]> os).
Proof.
  revert i. induction os as [|o0 os IH]; intros i; simpl; [done|].
  case_decide as Hid.
  - by intros [= <- <-].
  - destruct (list_find _ os) as [[j y]|] eqn:Hl; [|done]. simpl.
    intros [= <- <-]. by rewrite (IH _ eq_refl).
Qed.



Lemma complete_objective_match now1 now2 pid oid w p o os' :
  PyDict.get pid (projects w) = Some p →
  complete_first now1 oid (ProjectConfig.objectives p) = Some (o, os') →
  let p' := ProjectConfig.set_last_active now2
              (ProjectConfig.set_objectives os' p) in
  complete_objective now1 now2 WriteOk pid oid w =
  (Ok true,
   World (PyDict.setitem pid p' (projects w)) (focused_project_id w)
     (<[config_file_of (ProjectConfig.project_id p) :=
          Document (PDict (to_dict p'))]> (files w))
     (log w ++ [Info ("Saved project config: " +:+ ProjectConfig.name p);
                Info ("Completed objective in project "
                      +:+ ProjectConfig.name p +:+ ": "
                      +:+ Objective.title o)])).
Proof.
  intros Hget Hfirst p'. unfold complete_objective. unfold_M.
  rewrite Hget, Hfirst. unfold_M. rewrite Hget. unfold_M.
  by rewrite <-app_assoc.
Qed.


End CompleteObjective.




(** ** Growth of the collections *)

Section Growth.

Variable abspath : string → string.













End Growth.

Section GrowthAll.

Variable abspath : string → string.



End GrowthAll.



(** ** Write-through *)

Section WriteThrough.

Variable abspath : string → string.

Lemma written_same w : written w w.
Proof. split; [by intros k p' ->|done]. Qed.

Lemma written_store w k cf q foc lg :
  keyed (projects w) → ProjectConfig.project_id q = k →
  cf = config_file_of k →
  written w (World (PyDict.setitem k q (projects w)) foc
               (<[cf := Document (PDict (to_dict q))]> (files w)) lg).
Proof.
  intros Hk Hq ->. split.
  - intros k' p'. simpl. rewrite get_setitem. case_decide as Hkk'; [|done].
    intros [= <-] _. unfold persisted. simpl.
    by rewrite Hq, lookup_insert_eq.
  - intros Hsync k' p'. simpl. rewrite get_setitem.
    unfold persisted. simpl. case_decide as Hkk'.
    + intros [= <-]. by rewrite Hq, lookup_insert_eq.
    + intros Hget. rewrite (keyed_get _ _ _ Hk Hget).
      rewrite lookup_insert_ne by (by intros ?%config_file_of_inj).
      specialize (Hsync _ _ Hget). unfold persisted in Hsync.
      by rewrite (keyed_get _ _ _ Hk Hget) in Hsync.
Qed.

Lemma written_exec c w r w' :
  keyed (projects w) → exec abspath WriteOk c w = (r, w') →
  r = Ok () ∧ written w w'.
Proof.
  intros Hk.
  destruct c; split_call w; intros [= <- <-]; (split; [done|]);
    try congruence; try apply written_same;
    try (apply written_store; [done|simpl; eauto using keyed_get|
                               simpl; by erewrite ?keyed_get by done]).
Qed.

Lemma parsed_empty listing : parsed ∅ listing = [].
Proof.
  induction listing as [|f l IH]; [done|]. unfold parsed. simpl.
  unfold parse at 1. rewrite lookup_empty. exact IH.
Qed.

Lemma in_sync_empty_directory listing : in_sync (init listing ∅).2.
Proof.
  unfold init.
  destruct (load_all_projects_eq listing (World [] None ∅ [])) as [_ Hps].
  intros k p. rewrite Hps. simpl. by rewrite parsed_empty.
Qed.

Lemma in_sync_run_all listing cs :
  in_sync (run_all abspath ((λ c, (WriteOk, c)) <$> cs) (init listing ∅).2).
Proof.
  assert (∀ w, inv w → in_sync w →
               in_sync (run_all abspath ((λ c, (WriteOk, c)) <$> cs) w))
    as Hall.
  { induction cs as [|c cs IH]; intros w Hinv Hsync; [done|]. simpl.
    apply IH; [by apply inv_run|]. unfold run.
    destruct (exec abspath WriteOk c w) as [r w'] eqn:E.
    destruct Hinv as [Hk _].
    by destruct (written_exec _ _ _ _ Hk E) as [_ [_ Hs]]; apply Hs. }
  apply Hall; [apply inv_init|apply in_sync_empty_directory].
Qed.

End WriteThrough.

(** C1, as the code has it — write-through persistence. For every call of
    an operation of the store whose file write succeeds, in every state the
    store reaches: the call does not raise; every record it has created or
    changed is serialized in full to the file named after its id, which
    holds nothing else; and if every record of the in-memory map had its
    file holding the serialization of its in-memory state before the call,
    so it is after the call. *)
Theorem write_through (abspath : string → string) (c : call) (w : world) :
  reachable abspath w →
  (exec abspath WriteOk c w).1 = Ok () ∧
  (∀ k p', PyDict.get k (projects (run abspath WriteOk c w)) = Some p' →
           PyDict.get k (projects w) ≠ Some p' →
           persisted (run abspath WriteOk c w) p') ∧
  (in_sync w → in_sync (run abspath WriteOk c w)).
Proof.
  intros [Hk _]%reachable_inv. unfold run.
  destruct (exec abspath WriteOk c w) as [r w'] eqn:E.
  by destruct (written_exec _ _ _ _ _ Hk E) as [-> [? ?]].
Qed.

Lemma reachable_run_all (abspath : string → string)
    (cs : list (write_outcome * call)) (w : world) :
  reachable abspath w → reachable abspath (run_all abspath cs w).
Proof.
  revert w. induction cs as [|[io c] cs IH]; intros w Hr; [done|].
  simpl. apply IH. eapply reachable_step; [done|apply step_call].
Qed.

Lemma write_through_witness :
  let w := run_all id
             ((λ c, (WriteOk, c)) <$>
              [CreateProject Samples.a_uuid "2025-03-03T08:00:00"
                 "2025-03-03T08:00:01" "Alpha" "/tmp/alpha" None "";
               AddObjective Samples.another_uuid "2025-03-03T09:00:00"
                 "2025-03-03T09:00:01" "proj_9f8e7d6c5b4a" "Ship v1" "" "medium"])
             (init [] ∅).2 in
  let c := CompleteObjective "2025-03-03T10:00:00" "2025-03-03T10:00:01"
             "proj_9f8e7d6c5b4a" "obj_0a1b2c3d" in
  reachable id w ∧ in_sync w ∧
  (exec id WriteOk c w).1 = Ok () ∧ in_sync (run id WriteOk c w).
Proof.
  intros w c.
  assert (reachable id w) as Hr by apply reachable_run_all, reachable_init.
  assert (in_sync w) as Hs by apply in_sync_run_all.
  destruct (write_through id c w Hr) as (Hok & _ & Hsync).
  split_and!; [exact Hr | exact Hs | exact Hok | exact (Hsync Hs)].
Defined.

Lemma document_differs (m1 m2 : gmap string pyval) (key : string) :
  m1 !! key ≠ m2 !! key →
  Some (Document (PDict m1)) ≠ Some (Document (PDict m2)).
Proof. intros Hne [= ->]. by apply Hne. Qed.

(** C1, as the specification states it, fails: a record loaded at the
    initialization from a file that is not the serialization of the record
    under the name of its id stays without such a file after a call on
    another record; here no file of the directory at all holds the
    serialization of the loaded record after a [create_project]. *)
Lemma write_through_loaded_record :
  let w := (init ["alpha.json"; "broken.json"] Samples.mixed_disk).2 in
  let w' := run id WriteOk
              (CreateProject Samples.a_uuid "2025-03-03T08:00:00"
                 "2025-03-03T08:00:01" "Beta" "/tmp/beta" None "") w in
  let p := Samples.record "proj_0123456789ab" "Alpha" ACTIVE in
  reachable id w ∧
  PyDict.get "proj_0123456789ab" (projects w') = Some p ∧
  files w' !! config_file_of "proj_0123456789ab" = None ∧
  ∀ f, files w' !! f ≠ Some (Document (PDict (to_dict p))).
Proof.
  intros w w' p. split_and!.
  - apply reachable_init.
  - vm_compute. reflexivity.
  - vm_compute. reflexivity.
  - intros f Hf.
    assert (files w'
            = <[ "proj_9f8e7d6c5b4a.json" :=
                   Document (PDict (to_dict
                     (ProjectConfig.mk "proj_9f8e7d6c5b4a" "Beta" "/tmp/beta"
                        ["/tmp/beta"] ACTIVE "2025-03-03T08:00:00"
                        "2025-03-03T08:00:01" ""
                        ProjectConfig.default_file_extensions [] [] ∅))) ]>
                Samples.mixed_disk) as Hfiles by (vm_compute; reflexivity).
    rewrite Hfiles in Hf. unfold Samples.mixed_disk, Samples.record_file in Hf.
    rewrite !lookup_insert, lookup_empty in Hf.
    repeat case_decide; [| |discriminate Hf|discriminate Hf].
    + revert Hf. apply (document_differs _ _ "name"). vm_compute. discriminate.
    + revert Hf. apply (document_differs _ _ "description").
      vm_compute. discriminate.
Qed.


(** * Further properties of the code *)

(** ** [from_dict]: defaults and strictness *)

Section FromDict.

(** A file in which only the fields without default are given parses to the
    record with the defaults of the dataclass: empty description, the eight
    default file extensions, no decisions, no objectives, empty metadata. *)
Theorem from_dict_defaults (project_id name root_path : string)
    (watch_dirs : list string) (status : ProjectStatus)
    (created_at last_active : string) :
  from_dict (PDict (
    <[ "project_id" := PStr project_id ]>
    (<[ "name" := PStr name ]>
    (<[ "root_path" := PStr root_path ]>
    (<[ "watch_dirs" := PList (PStr <$> watch_dirs) ]>
    (<[ "status" := PStr (Status.value status) ]>
    (<[ "created_at" := PStr created_at ]>
    (<[ "last_active" := PStr last_active ]> ∅))))))))
  = Ok (ProjectConfig.mk project_id name root_path watch_dirs status
          created_at last_active EmptyString
          ProjectConfig.default_file_extensions [] [] ∅).
Proof.
  match goal with
  | |- from_dict (PDict ?m) = _ => set (data := m)
  end.
  unfold from_dict.
  change (data !! "status") with (Some (PStr (Status.value status))).
  change (optional data "decisions" (PList [])) with (PList []).
  change (optional data "objectives" (PList [])) with (PList []).
  cbv beta iota. rewrite bind_Ok, status_of_value, bind_Ok. simpl.
  unfold ProjectConfig_init.
  change (only_fields data ProjectConfig_fields) with (Ok ()).
  change (required data "project_id") with (Ok (PStr project_id)).
  change (required data "name") with (Ok (PStr name)).
  change (required data "root_path") with (Ok (PStr root_path)).
  change (required data "watch_dirs") with (Ok (PList (PStr <$> watch_dirs))).
  change (required data "created_at") with (Ok (PStr created_at)).
  change (required data "last_active") with (Ok (PStr last_active)).
  change (optional data "description" (PStr "")) with (PStr "").
  change (optional data "file_extensions" PNone) with PNone.
  change (optional data "metadata" PNone) with PNone.
  simpl. by rewrite traverse_as_str.
Qed.

(** The nested constructors fill their defaults too: a decision without
    [tags] has none; an objective given by its four first fields is pending,
    of medium priority, and not completed. *)
Theorem nested_defaults (id a b c : string) :
  Decision_init
    (<[ "id" := PStr id ]> (<[ "decision" := PStr a ]>
     (<[ "reasoning" := PStr b ]> (<[ "timestamp" := PStr c ]> ∅))))
  = Ok (Decision.mk id a b c []) ∧
  Decision_init
    (<[ "id" := PStr id ]> (<[ "decision" := PStr a ]>
     (<[ "reasoning" := PStr b ]> (<[ "timestamp" := PStr c ]>
     (<[ "tags" := PNone ]> ∅)))))
  = Ok (Decision.mk id a b c []) ∧
  Objective_init
    (<[ "id" := PStr id ]> (<[ "title" := PStr a ]>
     (<[ "description" := PStr b ]> (<[ "created_at" := PStr c ]> ∅))))
  = Ok (Objective.mk id a b c None "pending" "medium").
Proof. split_and!; reflexivity. Qed.

(** [from_dict] is strict: when it accepts a value, the value is a dict all
    of whose keys are fields of [ProjectConfig], and it holds the id, the
    name and the status tag of the record it returns. A file with one key
    more than the fields is not loaded. *)
Theorem from_dict_strict (data : pyval) (p : ProjectConfig.t) :
  from_dict data = Ok p →
  ∃ m, data = PDict m ∧
       dom m ⊆ ProjectConfig_fields ∧
       m !! "project_id" = Some (PStr (ProjectConfig.project_id p)) ∧
       m !! "name" = Some (PStr (ProjectConfig.name p)) ∧
       m !! "status" = Some (PStr (Status.value (ProjectConfig.status p))).
Proof. apply from_dict_Ok_inv. Qed.

Lemma from_dict_strict_witness :
  let data := PDict (to_dict Samples.busy_project) in
  from_dict data = Ok Samples.busy_project ∧
  ∃ m, data = PDict m ∧ dom m ⊆ ProjectConfig_fields.
Proof.
  intros data.
  assert (from_dict data = Ok Samples.busy_project) as Hfrom
    by (vm_compute; reflexivity).
  destruct (from_dict_strict _ _ Hfrom) as (m & Hm & Hdom & _).
  split; [exact Hfrom|]. exists m. split; [exact Hm | exact Hdom].
Defined.

(** A key that is no field makes [from_dict] fail, whatever else the dict
    holds: here a serialized record with one more key. *)
Theorem from_dict_unknown_key (p : ProjectConfig.t) (k : string) (v : pyval) :
  k ∉ ProjectConfig_fields →
  from_dict (PDict (<[k := v]> (to_dict p))) = Raise TypeError.
Proof.
  intros Hk.
  destruct (from_dict (PDict (<[k := v]> (to_dict p)))) as [q|e] eqn:Hfrom.
  - destruct (from_dict_Ok_inv _ _ Hfrom) as (m & [= <-] & Hdom & _).
    exfalso. apply Hk, Hdom. apply elem_of_dom. rewrite lookup_insert_eq. eauto.
  - f_equal. revert Hfrom. unfold from_dict.
    assert (∀ f, f ∈ ProjectConfig_fields → <[k := v]> (to_dict p) !! f = to_dict p !! f)
      as Hsame.
    { intros f Hf. apply lookup_insert_ne. by intros ->. }
    unfold optional. rewrite !Hsame by (vm_compute; done).
    change (to_dict p !! "status")
      with (Some (PStr (Status.value (ProjectConfig.status p)))).
    change (to_dict p !! "decisions")
      with (Some (PList ((PDict ∘ asdict_decision) <$> ProjectConfig.decisions p))).
    change (to_dict p !! "objectives")
      with (Some (PList ((PDict ∘ asdict_objective) <$> ProjectConfig.objectives p))).
    cbv beta iota. rewrite bind_Ok, status_of_value, bind_Ok. simpl.
    rewrite (traverse_splat _ _ _ Decision_init_asdict). simpl.
    rewrite (traverse_splat _ _ _ Objective_init_asdict). simpl.
    unfold ProjectConfig_init, only_fields.
    rewrite bool_decide_eq_false_2; [by intros [= <-]|].
    intros Hdom. apply Hk, Hdom, elem_of_dom. rewrite lookup_insert_eq. eauto.
Qed.

Lemma from_dict_unknown_key_witness :
  ("schema_version" ∉ ProjectConfig_fields) ∧
  from_dict (PDict (<["schema_version" := PInt 2]> (to_dict Samples.busy_project)))
  = Raise TypeError.
Proof.
  assert ("schema_version" ∉ ProjectConfig_fields) as Hk
    by (apply (bool_decide_unpack _); vm_compute; exact I).
  split; [exact Hk|]. exact (from_dict_unknown_key _ _ _ Hk).
Defined.

End FromDict.

(** ** Status changes *)

Section StatusChanges.

Variable abspath : string → string.

Lemma update_status_known now pid status w p :
  PyDict.get pid (projects w) = Some p →
  let p' := ProjectConfig.set_last_active now (ProjectConfig.set_status status p) in
  update_status now WriteOk pid status w =
  (Ok true,
   World (PyDict.setitem pid p' (projects w)) (focused_project_id w)
     (<[config_file_of (ProjectConfig.project_id p) := Document (PDict (to_dict p'))]>
        (files w))
     (log w ++ [Info ("Saved project config: " +:+ ProjectConfig.name p);
                Info ("Updated project " +:+ ProjectConfig.name p
                      +:+ " status to: " +:+ Status.value status)])).
Proof.
  intros Hget p'. unfold update_status. unfold_M. rewrite Hget. unfold_M.
  rewrite Hget. unfold_M. by rewrite <-app_assoc.
Qed.

(** [update_status] returns [False] and changes nothing on an unknown id.
    On a known id, the write succeeding, it returns [True]; the record has
    the new status and the new [last_active] and is otherwise as before; it
    is saved; the other records and the focus are as before. *)
Theorem update_status_spec (now project_id : string) (status : ProjectStatus)
    (w : world) :
  (PyDict.get project_id (projects w) = None →
   ∀ io, update_status now io project_id status w = (Ok false, w)) ∧
  (∀ p, PyDict.get project_id (projects w) = Some p →
   ∃ w',
     update_status now WriteOk project_id status w = (Ok true, w') ∧
     PyDict.get project_id (projects w')
     = Some (ProjectConfig.set_last_active now
               (ProjectConfig.set_status status p)) ∧
     persisted w' (ProjectConfig.set_last_active now
                     (ProjectConfig.set_status status p)) ∧
     (∀ k, k ≠ project_id →
           PyDict.get k (projects w') = PyDict.get k (projects w)) ∧
     focused_project_id w' = focused_project_id w).
Proof.
  split.
  - intros Hget io. unfold update_status. unfold_M. by rewrite Hget.
  - intros p Hget. eexists. split; [by apply update_status_known|].
    simpl. split_and!; [apply get_setitem_eq| | |done].
    + unfold persisted. simpl. by rewrite lookup_insert_eq.
    + intros k Hk. by apply get_setitem_ne.
Qed.

Lemma update_status_spec_witness :
  ∃ w',
    update_status "2025-03-06T08:00:00" WriteOk "proj_9f8e7d6c5b4a" PAUSED
      Samples.completed_world = (Ok true, w') ∧
    ProjectConfig.status <$> PyDict.get "proj_9f8e7d6c5b4a" (projects w')
    = Some PAUSED.
Proof.
  destruct (PyDict.get "proj_9f8e7d6c5b4a" (projects Samples.completed_world))
    as [p|] eqn:Hget; [|by vm_compute in Hget].
  destruct (update_status_spec "2025-03-06T08:00:00" "proj_9f8e7d6c5b4a" PAUSED
              Samples.completed_world) as [_ Hknown].
  destruct (Hknown p Hget) as (w' & Hret & Hp' & _).
  exists w'. split; [exact Hret|]. by rewrite Hp'.
Defined.

(** Archiving does not move the focus: after [archive_project] on the
    focused project, [get_focused_project] still returns it, archived, and
    [get_active_projects] does not list it. *)
Theorem archive_keeps_focus (now project_id : string) (w : world)
    (p : ProjectConfig.t) :
  reachable abspath w →
  focused_project_id w = Some project_id → project_id ≠ EmptyString →
  PyDict.get project_id (projects w) = Some p →
  ∃ w' p',
    archive_project now WriteOk project_id w = (Ok true, w') ∧
    get_focused_project w' = (Ok (Some p'), w') ∧
    ProjectConfig.project_id p' = project_id ∧
    ProjectConfig.status p' = ARCHIVED ∧
    ∃ active, get_active_projects w' = (Ok active, w') ∧ p' ∉ active.
Proof.
  intros [Hk _]%reachable_inv Hfoc Hne Hget.
  pose proof (keyed_get _ _ _ Hk Hget) as Hid.
  eexists _, (ProjectConfig.set_last_active now
                (ProjectConfig.set_status ARCHIVED p)).
  split; [by apply update_status_known|]. split_and!; try done.
  - unfold get_focused_project. unfold_M. rewrite Hfoc. simpl.
    rewrite bool_decide_eq_false_2 by done. simpl.
    by rewrite get_setitem_eq.
  - eexists. split; [reflexivity|]. simpl.
    intros [Hact _]%list_elem_of_filter. unfold is_active in Hact.
    by apply bool_decide_eq_true in Hact.
Qed.

End StatusChanges.

Lemma completed_world_reachable : reachable id Samples.completed_world.
Proof.
  assert (Samples.completed_world =
    run_all id
       [(WriteOk, CreateProject Samples.a_uuid "2025-03-03T08:00:00"
                    "2025-03-03T08:00:01" "Alpha" "/tmp/alpha" None EmptyString);
        (WriteOk, AddObjective Samples.another_uuid "2025-03-03T09:00:00"
                    "2025-03-03T09:00:01" "proj_9f8e7d6c5b4a" "Ship v1"
                    EmptyString "medium");
        (WriteOk, CompleteObjective "2025-03-03T10:00:00" "2025-03-03T10:00:01"
                    "proj_9f8e7d6c5b4a" "obj_0a1b2c3d")]
       (init [] ∅).2) as -> by (vm_compute; reflexivity).
  apply reachable_run_all, reachable_init.
Qed.

Lemma archive_keeps_focus_witness :
  reachable id Samples.completed_world ∧
  focused_project_id Samples.completed_world = Some "proj_9f8e7d6c5b4a" ∧
  ∃ w' p',
    archive_project "2025-03-06T08:00:00" WriteOk "proj_9f8e7d6c5b4a"
      Samples.completed_world = (Ok true, w') ∧
    get_focused_project w' = (Ok (Some p'), w') ∧
    ProjectConfig.status p' = ARCHIVED.
Proof.
  assert (focused_project_id Samples.completed_world = Some "proj_9f8e7d6c5b4a")
    as Hfoc by (vm_compute; reflexivity).
  assert ("proj_9f8e7d6c5b4a" ≠ EmptyString) as Hne by discriminate.
  destruct (PyDict.get "proj_9f8e7d6c5b4a" (projects Samples.completed_world))
    as [p|] eqn:Hget; [|by vm_compute in Hget].
  destruct (archive_keeps_focus id "2025-03-06T08:00:00" "proj_9f8e7d6c5b4a"
              Samples.completed_world p completed_world_reachable Hfoc Hne Hget)
    as (w' & p' & Hret & Hfocused & _ & Hst & _).
  split_and!; [exact completed_world_reachable | exact Hfoc |].
  exists w', p'. split_and!; [exact Hret | exact Hfocused | exact Hst].
Defined.

(** ** Failed writes *)

Section FailedWrites.

Variable abspath : string → string.


(** [create_project] puts the record in the map before it saves. When the
    write fails the call raises, the record stays in the map, and it is not
    made the focus, first project or not; a later [create_project] that
    succeeds finds two records and sets no focus either. *)
Theorem create_project_failed_write (u1 u2 t1 t2 t3 t4 n1 n2 r1 r2 d1 d2 : string)
    (wd1 wd2 : option (list string)) :
  let id1 := "proj_" +:+ substring 0 12 u1 in
  let id2 := "proj_" +:+ substring 0 12 u2 in
  let w0 := World [] None ∅ [] in
  let first := create_project abspath u1 t1 t2 OpenFails n1 r1 wd1 d1 w0 in
  let second := create_project abspath u2 t3 t4 WriteOk n2 r2 wd2 d2 first.2 in
  id1 ≠ id2 →
  first.1 = Raise OSError ∧
  is_Some (PyDict.get id1 (projects first.2)) ∧
  focused_project_id first.2 = None ∧
  is_Some (PyDict.get id1 (projects second.2)) ∧
  is_Some (PyDict.get id2 (projects second.2)) ∧
  focused_project_id second.2 = None.
Proof.
  intros id1 id2 w0 first second Hne. unfold second, first, w0.
  assert (id2 ≠ id1) as Hne' by (by intros Heq; apply Hne).
  unfold create_project. unfold_M. fold id1 id2.
  rewrite !(decide_True (P := id1 = id1)) by done.
  rewrite !(decide_False (P := id2 = id1)) by done. simpl.
  rewrite !(decide_True (P := id2 = id2)) by done.
  rewrite !(decide_True (P := id1 = id1)) by done.
  split_and!; eauto; by case_decide.
Qed.

(** [create_project] does not look whether its id is taken: on a draw whose
    id is the id of a record of the store, the new record takes its place in
    the map, with no decisions and no objectives, and its file is
    overwritten; the number of records does not change. *)
Theorem create_project_collision (u t1 t2 name root_path description : string)
    (watch_dirs : option (list string)) (w : world) (old : ProjectConfig.t) :
  PyDict.get ("proj_" +:+ substring 0 12 u) (projects w) = Some old →
  ∃ p w',
    create_project abspath u t1 t2 WriteOk name root_path watch_dirs
      description w = (Ok p, w') ∧
    PyDict.get ("proj_" +:+ substring 0 12 u) (projects w') = Some p ∧
    ProjectConfig.decisions p = [] ∧ ProjectConfig.objectives p = [] ∧
    length (projects w') = length (projects w) ∧
    persisted w' p.
Proof.
  intros Hold. eexists _, _. split; [apply create_project_eq|].
  simpl. split_and!; try done.
  - apply get_setitem_eq.
  - apply length_setitem_known. eauto.
  - unfold persisted. simpl. by rewrite lookup_insert_eq.
Qed.

End FailedWrites.

Lemma create_project_failed_write_witness :
  let first := create_project id Samples.a_uuid "2025-03-03T08:00:00"
                 "2025-03-03T08:00:01" OpenFails "Alpha" "/tmp/alpha" None
                 EmptyString (World [] None ∅ []) in
  let second := create_project id Samples.another_uuid "2025-03-03T09:00:00"
                  "2025-03-03T09:00:01" WriteOk "Beta" "/tmp/beta" None
                  EmptyString first.2 in
  "proj_" +:+ substring 0 12 Samples.a_uuid
  ≠ "proj_" +:+ substring 0 12 Samples.another_uuid ∧
  first.1 = Raise OSError ∧
  focused_project_id second.2 = None.
Proof.
  intros first second.
  assert ("proj_" +:+ substring 0 12 Samples.a_uuid
          ≠ "proj_" +:+ substring 0 12 Samples.another_uuid) as Hne
    by (vm_compute; discriminate).
  destruct (create_project_failed_write id Samples.a_uuid Samples.another_uuid
              "2025-03-03T08:00:00" "2025-03-03T08:00:01" "2025-03-03T09:00:00"
              "2025-03-03T09:00:01" "Alpha" "Beta" "/tmp/alpha" "/tmp/beta"
              EmptyString EmptyString None None Hne)
    as (Hraise & _ & _ & _ & _ & Hfoc).
  split_and!; [exact Hne | exact Hraise | exact Hfoc].
Defined.

Lemma create_project_collision_witness :
  ∃ old p w',
    PyDict.get ("proj_" +:+ substring 0 12 Samples.a_uuid)
      (projects Samples.completed_world) = Some old ∧
    length (ProjectConfig.objectives old) = 1 ∧
    create_project id Samples.a_uuid "2025-03-07T08:00:00" "2025-03-07T08:00:01"
      WriteOk "Gamma" "/tmp/gamma" None EmptyString Samples.completed_world
    = (Ok p, w') ∧
    PyDict.get "proj_9f8e7d6c5b4a" (projects w') = Some p ∧
    ProjectConfig.objectives p = [].
Proof.
  destruct (PyDict.get ("proj_" +:+ substring 0 12 Samples.a_uuid)
              (projects Samples.completed_world)) as [old|] eqn:Hold;
    [|by vm_compute in Hold].
  destruct (create_project_collision id Samples.a_uuid "2025-03-07T08:00:00"
              "2025-03-07T08:00:01" "Gamma" "/tmp/gamma" EmptyString None
              Samples.completed_world old Hold)
    as (p & w' & Hret & Hget & _ & Hobj & _).
  exists old, p, w'. split_and!; [reflexivity | | exact Hret | exact Hget | exact Hobj].
  vm_compute in Hold. by injection Hold as <-.
Defined.


(** ** Decisions and objectives *)

Section Additions.

Lemma add_decision_known u now1 now2 pid decision reasoning tags w p :
  PyDict.get pid (projects w) = Some p →
  let d := Decision.mk ("dec_" +:+ substring 0 8 u) decision reasoning now1
             (default [] tags) in
  let p' := ProjectConfig.set_last_active now2
              (ProjectConfig.set_decisions (ProjectConfig.decisions p ++ [d]) p) in
  add_decision u now1 now2 WriteOk pid decision reasoning tags w =
  (Ok (Some d),
   World (PyDict.setitem pid p' (projects w)) (focused_project_id w)
     (<[config_file_of (ProjectConfig.project_id p) := Document (PDict (to_dict p'))]>
        (files w))
     (log w ++ [Info ("Saved project config: " +:+ ProjectConfig.name p);
                Info ("Added decision to project " +:+ ProjectConfig.name p
                      +:+ ": " +:+ decision)])).
Proof.
  intros Hget d p'. unfold add_decision. unfold_M. rewrite Hget. unfold_M.
  rewrite Hget. unfold_M. by rewrite <-app_assoc.
Qed.

Lemma add_objective_known u now1 now2 pid title description priority w p :
  PyDict.get pid (projects w) = Some p →
  let o := Objective.mk ("obj_" +:+ substring 0 8 u) title description now1
             None "pending" priority in
  let p' := ProjectConfig.set_last_active now2
              (ProjectConfig.set_objectives (ProjectConfig.objectives p ++ [o]) p) in
  add_objective u now1 now2 WriteOk pid title description priority w =
  (Ok (Some o),
   World (PyDict.setitem pid p' (projects w)) (focused_project_id w)
     (<[config_file_of (ProjectConfig.project_id p) := Document (PDict (to_dict p'))]>
        (files w))
     (log w ++ [Info ("Saved project config: " +:+ ProjectConfig.name p);
                Info ("Added objective to project " +:+ ProjectConfig.name p
                      +:+ ": " +:+ title)])).
Proof.
  intros Hget o p'. unfold add_objective. unfold_M. rewrite Hget. unfold_M.
  rewrite Hget. unfold_M. by rewrite <-app_assoc.
Qed.

(** [add_decision] returns [None] and changes nothing on an unknown
    project. On a known one, the write succeeding, it returns the decision it
    made: its id is [dec_] and 8 hexadecimal digits of the draw, its
    timestamp the first reading of the clock, its tags the given ones or
    none; the decision is the last of the project's decisions, the earlier
    ones are as before, and the record is saved. *)
Theorem add_decision_spec (u now1 now2 project_id decision reasoning : string)
    (tags : option (list string)) (w : world) :
  is_uuid_hex u →
  (PyDict.get project_id (projects w) = None →
   ∀ io, add_decision u now1 now2 io project_id decision reasoning tags w
         = (Ok None, w)) ∧
  (∀ p, PyDict.get project_id (projects w) = Some p →
   ∃ d w' p',
     add_decision u now1 now2 WriteOk project_id decision reasoning tags w
     = (Ok (Some d), w') ∧
     (∃ h, Decision.id d = "dec_" +:+ h ∧ String.length h = 8 ∧ is_hex h) ∧
     Decision.decision d = decision ∧ Decision.reasoning d = reasoning ∧
     Decision.timestamp d = now1 ∧
     Decision.tags d = match tags with Some l => l | None => [] end ∧
     PyDict.get project_id (projects w') = Some p' ∧
     ProjectConfig.decisions p' = ProjectConfig.decisions p ++ [d] ∧
     ProjectConfig.objectives p' = ProjectConfig.objectives p ∧
     ProjectConfig.status p' = ProjectConfig.status p ∧
     ProjectConfig.last_active p' = now2 ∧
     persisted w' p').
Proof.
  intros [Hlen Hhex]. split.
  - intros Hget io. unfold add_decision. unfold_M. by rewrite Hget.
  - intros p Hget.
    eexists _, _,
      (ProjectConfig.set_last_active now2
         (ProjectConfig.set_decisions
            (ProjectConfig.decisions p
             ++ [Decision.mk ("dec_" +:+ substring 0 8 u) decision reasoning
                   now1 (default [] tags)]) p)).
    split; [by apply add_decision_known|]. simpl.
    split_and!; try done.
    + eexists. split_and!; [done| |by apply is_hex_substring_0].
      apply length_substring_0. rewrite Hlen. lia.
    + apply get_setitem_eq.
    + unfold persisted. simpl. by rewrite lookup_insert_eq.
Qed.

(** An objective that [add_objective] has added can be completed by the id
    the call returned: [complete_objective] on it returns [True]. When no
    earlier objective of the project has that id, the objectives are then
    the earlier ones, unchanged, followed by the new one, completed. When an
    earlier one has the id, that one is completed and the new one stays
    pending: the first match wins. *)
Theorem add_then_complete (u now1 now2 now3 now4 project_id title description
    priority : string) (w : world) (p : ProjectConfig.t) :
  PyDict.get project_id (projects w) = Some p →
  ∃ o w1 w2 p2,
    add_objective u now1 now2 WriteOk project_id title description priority w
    = (Ok (Some o), w1) ∧
    Objective.status o = "pending" ∧ Objective.completed_at o = None ∧
    complete_objective now3 now4 WriteOk project_id (Objective.id o) w1
    = (Ok true, w2) ∧
    PyDict.get project_id (projects w2) = Some p2 ∧
    ((∀ o', o' ∈ ProjectConfig.objectives p → Objective.id o' ≠ Objective.id o) →
     ProjectConfig.objectives p2
     = ProjectConfig.objectives p ++ [Objective.complete now3 o]) ∧
    (∀ i o', list_find (λ o', Objective.id o' = Objective.id o)
               (ProjectConfig.objectives p) = Some (i, o') →
     ProjectConfig.objectives p2
     = <[i := Objective.complete now3 o']> (ProjectConfig.objectives p) ++ [o]).
Proof.
  intros Hget.
  set (o := Objective.mk ("obj_" +:+ substring 0 8 u) title description now1
              None "pending" priority).
  set (p1 := ProjectConfig.set_last_active now2
               (ProjectConfig.set_objectives (ProjectConfig.objectives p ++ [o]) p)).
  assert (∃ i o', list_find (λ o', Objective.id o' = Objective.id o)
                    (ProjectConfig.objectives p ++ [o]) = Some (i, o'))
    as (i & o' & Hfind).
  { destruct (list_find (λ o', Objective.id o' = Objective.id o)
                (ProjectConfig.objectives p ++ [o])) as [[i o']|] eqn:E; [eauto|].
    exfalso. apply list_find_None in E.
    rewrite Forall_app, Forall_singleton in E. destruct E as [_ E].
    by apply E. }
  pose proof (complete_first_found now3 _ _ _ _ Hfind) as Hfirst.
  eexists o, _, _, _.
  split; [by apply add_objective_known|].
  split; [done|]. split; [done|].
  split.
  { eapply complete_objective_match; [apply get_setitem_eq|exact Hfirst]. }
  simpl. split; [apply get_setitem_eq|]. simpl.
  apply list_find_app_Some in Hfind as [Hl|(Hle & Hnone & Hr)].
  - split.
    + intros Hno. exfalso. apply list_find_Some in Hl as (Hi & Hid & _).
      eapply Hno; [by eapply list_elem_of_lookup_2|done].
    + intros j o'' Hj.
      assert (Some (j, o'') = Some (i, o')) as [= -> ->]
        by exact (eq_trans (eq_sym Hj) Hl).
      apply list_find_Some in Hl as (Hi & _).
      rewrite insert_app_l by (by eapply lookup_lt_Some). done.
  - split.
    + intros _. simpl in Hr. rewrite decide_True in Hr by done.
      simpl in Hr. injection Hr as Hi <-.
      rewrite insert_app_r_alt by done. by rewrite <-Hi.
    + intros j o'' Hj.
      assert (Some (j, o'') = None) as [=] by exact (eq_trans (eq_sym Hj) Hnone).
Qed.

End Additions.

Lemma add_decision_spec_witness :
  is_uuid_hex Samples.another_uuid ∧
  ∃ d w',
    add_decision Samples.another_uuid "2025-03-08T08:00:00" "2025-03-08T08:00:01"
      WriteOk "proj_9f8e7d6c5b4a" "Use JSON files" "No server needed" None
      Samples.completed_world = (Ok (Some d), w') ∧
    Decision.tags d = [].
Proof.
  assert (is_uuid_hex Samples.another_uuid) as Hu.
  { split; [reflexivity|]. unfold is_hex. vm_compute.
    repeat (constructor; [reflexivity|]). constructor. }
  destruct (PyDict.get "proj_9f8e7d6c5b4a" (projects Samples.completed_world))
    as [p|] eqn:Hget; [|by vm_compute in Hget].
  destruct (add_decision_spec Samples.another_uuid "2025-03-08T08:00:00"
              "2025-03-08T08:00:01" "proj_9f8e7d6c5b4a" "Use JSON files"
              "No server needed" None Samples.completed_world Hu) as [_ Hknown].
  destruct (Hknown p Hget) as (d & w' & p' & Hret & _ & _ & _ & _ & Htags & _).
  split; [exact Hu|]. exists d, w'. split; [exact Hret | exact Htags].
Defined.

Lemma add_then_complete_witness :
  ∃ p o w1 w2 p2,
    PyDict.get "proj_9f8e7d6c5b4a" (projects Samples.alpha_world) = Some p ∧
    add_objective Samples.another_uuid "2025-03-03T09:00:00" "2025-03-03T09:00:01"
      WriteOk "proj_9f8e7d6c5b4a" "Ship v1" EmptyString "medium"
      Samples.alpha_world = (Ok (Some o), w1) ∧
    complete_objective "2025-03-03T10:00:00" "2025-03-03T10:00:01" WriteOk
      "proj_9f8e7d6c5b4a" (Objective.id o) w1 = (Ok true, w2) ∧
    PyDict.get "proj_9f8e7d6c5b4a" (projects w2) = Some p2 ∧
    ProjectConfig.objectives p2
    = ProjectConfig.objectives p ++ [Objective.complete "2025-03-03T10:00:00" o].
Proof.
  destruct (PyDict.get "proj_9f8e7d6c5b4a" (projects Samples.alpha_world))
    as [p|] eqn:Hget; [|by vm_compute in Hget].
  destruct (add_then_complete Samples.another_uuid "2025-03-03T09:00:00"
              "2025-03-03T09:00:01" "2025-03-03T10:00:00" "2025-03-03T10:00:01"
              "proj_9f8e7d6c5b4a" "Ship v1" EmptyString "medium"
              Samples.alpha_world p Hget)
    as (o & w1 & w2 & p2 & Hadd & _ & _ & Hdone & Hp2 & Hfresh & _).
  exists p, o, w1, w2, p2.
  split_and!; [reflexivity | exact Hadd | exact Hdone | exact Hp2 |].
  apply Hfresh. vm_compute in Hget. injection Hget as <-. simpl.
  by intros o' ?%elem_of_nil.
Defined.

(** ** Invariants of the records *)

Section Identity.

Variable abspath : string → string.

Lemma same_identity_refl p : same_identity p p.
Proof. by repeat split. Qed.

Lemma same_identity_trans p1 p2 p3 :
  same_identity p1 p2 → same_identity p2 p3 → same_identity p1 p3.
Proof.
  unfold same_identity. intros (?&?&?&?&?&?&?&?) (?&?&?&?&?&?&?&?).
  split_and!; congruence.
Qed.

Lemma same_identity_setitem ps k q' pid p :
  PyDict.get pid ps = Some p →
  (k = pid → same_identity p q') →
  ∃ p', PyDict.get pid (PyDict.setitem k q' ps) = Some p' ∧ same_identity p p'.
Proof.
  intros Hp Hq. rewrite get_setitem. case_decide as Hk; [eauto|].
  exists p. split; [done|apply same_identity_refl].
Qed.

Lemma same_identity_run io c w pid p :
  fresh_draw c w → PyDict.get pid (projects w) = Some p →
  ∃ p', PyDict.get pid (projects (run abspath io c w)) = Some p' ∧
        same_identity p p'.
Proof.
  intros Hfresh Hp.
  assert (∃ p', PyDict.get pid (projects w) = Some p' ∧ same_identity p p')
    as Hsame by (exists p; split; [done|apply same_identity_refl]).
  destruct c; simpl in Hfresh; split_call w; try exact Hsame;
    try (apply same_identity_setitem; [done|]; intros Hk; rewrite Hk in *;
         congruence);
    apply same_identity_setitem; try done; intros ->;
    rewrite Hp in *; simplify_eq; by repeat split.
Qed.

(** No call changes the id, the name, the root path, the watch directories,
    the creation time, the description, the file extensions or the metadata
    of a record of the store, under the contract of the unique-id source:
    the operations assign [status], [last_active], [decisions] and
    [objectives] only. *)
Theorem identity_fields_immutable (cs : list (write_outcome * call))
    (w : world) (project_id : string) (p : ProjectConfig.t) :
  fresh_draws abspath cs w →
  PyDict.get project_id (projects w) = Some p →
  ∃ p', PyDict.get project_id (projects (run_all abspath cs w)) = Some p' ∧
        same_identity p p'.
Proof.
  revert w p. induction cs as [|[io c] cs IH]; intros w p Hfresh Hp.
  - exists p. split; [done|apply same_identity_refl].
  - destruct Hfresh as [Hc Hcs].
    destruct (same_identity_run io c w project_id p Hc Hp) as (p1 & Hp1 & H1).
    destruct (IH _ _ Hcs Hp1) as (p' & Hp' & H').
    exists p'. split; [done|]. by eapply same_identity_trans.
Qed.

End Identity.

Lemma identity_fields_immutable_witness :
  let cs :=
    [(WriteOk, PauseProject "2025-03-05T10:00:00" "proj_9f8e7d6c5b4a");
     (DumpFails "{", AddDecision "1b2c3d4e5f60718293a4b5c6d7e8f90a"
                 "2025-03-05T09:00:00" "2025-03-05T09:00:01"
                 "proj_9f8e7d6c5b4a" "Use JSON files" "No server needed" None);
     (WriteOk, SetFocus "2025-03-05T11:00:00" "proj_9f8e7d6c5b4a")] in
  fresh_draws id cs Samples.completed_world ∧
  ∃ p p',
    PyDict.get "proj_9f8e7d6c5b4a" (projects Samples.completed_world) = Some p ∧
    PyDict.get "proj_9f8e7d6c5b4a"
      (projects (run_all id cs Samples.completed_world)) = Some p' ∧
    ProjectConfig.name p' = ProjectConfig.name p ∧
    ProjectConfig.watch_dirs p' = ProjectConfig.watch_dirs p.
Proof.
  intros cs.
  assert (fresh_draws id cs Samples.completed_world) as Hfresh
    by (vm_compute; tauto).
  destruct (PyDict.get "proj_9f8e7d6c5b4a" (projects Samples.completed_world))
    as [p|] eqn:Hget; [|by vm_compute in Hget].
  destruct (identity_fields_immutable id cs Samples.completed_world
              "proj_9f8e7d6c5b4a" p Hfresh Hget)
    as (p' & Hp' & _ & Hname & _ & Hwd & _).
  split; [exact Hfresh|]. exists p, p'.
  split_and!; [reflexivity | exact Hp' | exact Hname | exact Hwd].
Defined.

(** ** Unique ids *)

Section UniqueIds.

Variable abspath : string → string.

Lemma keys_setitem (ps : list (string * ProjectConfig.t)) k p :
  (PyDict.setitem k p ps).*1
  = if PyDict.get k ps is Some _ then ps.*1 else ps.*1 ++ [k].
Proof.
  induction ps as [|[k0 p0] ps IH]; [done|].
  cbn [PyDict.setitem PyDict.get]. case_decide; [by subst|].
  rewrite !fmap_cons, IH. by destruct (PyDict.get k ps).
Qed.

Lemma get_None_keys (ps : list (string * ProjectConfig.t)) k :
  PyDict.get k ps = None → k ∉ ps.*1.
Proof.
  intros Hget ((k' & p) & -> & Hin)%list_elem_of_fmap. simpl in Hget.
  destruct (elem_get_is_Some _ _ _ Hin) as [? ?]. congruence.
Qed.

Lemma NoDup_setitem (ps : list (string * ProjectConfig.t)) k p :
  NoDup ps.*1 → NoDup (PyDict.setitem k p ps).*1.
Proof.
  intros Hnd. rewrite keys_setitem.
  destruct (PyDict.get k ps) eqn:Hget; [done|].
  apply NoDup_app. split_and!; [done| |apply NoDup_singleton].
  intros k' Hk' ->%list_elem_of_singleton. by eapply get_None_keys.
Qed.

Lemma NoDup_load_records l ps :
  NoDup ps.*1 → NoDup (load_records l ps).*1.
Proof.
  revert ps. induction l as [|p l IH]; intros ps Hnd; [done|].
  apply IH. by apply NoDup_setitem.
Qed.

Lemma NoDup_run io c w :
  NoDup (projects w).*1 → NoDup (projects (run abspath io c w)).*1.
Proof.
  intros Hnd. destruct c; split_call w; try done; by apply NoDup_setitem.
Qed.

Lemma reachable_NoDup w : reachable abspath w → NoDup (projects w).*1.
Proof.
  induction 1 as [listing disk|w w' _ IH [io c]].
  - unfold init.
    destruct (load_all_projects_eq listing (World [] None disk [])) as [_ ->].
    apply NoDup_load_records. constructor.
  - by apply NoDup_run.
Qed.

Lemma elem_get_NoDup (ps : list (string * ProjectConfig.t)) k p :
  NoDup ps.*1 → (k, p) ∈ ps → PyDict.get k ps = Some p.
Proof.
  induction ps as [|[k0 p0] ps IH]; simpl.
  - by intros _ ?%elem_of_nil.
  - intros [Hk0 Hnd]%NoDup_cons [[= -> ->]|Hin]%elem_of_cons.
    + by rewrite decide_True.
    + rewrite decide_False; [by apply IH|].
      intros ->. apply Hk0. by apply (list_elem_of_fmap_2 fst) in Hin.
  Qed.


End UniqueIds.


(** ** The derived documents *)

Section Documents.

Lemma count_by_status (ps : list ProjectConfig.t) :
  Summary.count ACTIVE ps + Summary.count PAUSED ps + Summary.count ARCHIVED ps
  = length ps.
Proof.
  unfold Summary.count. induction ps as [|p ps IH]; [done|].
  rewrite !filter_cons. destruct (ProjectConfig.status p) eqn:E;
    repeat case_decide; try congruence; simpl; lia.
Qed.

(** [get_project_summary] changes nothing; its three counts by status add
    up to the total; it has one row per record, in the order of the map,
    and each row counts the objectives of its record that are not
    completed. *)
Theorem project_summary_counts (w : world) :
  ∃ s,
    get_project_summary w = (Ok s, w) ∧
    Summary.total_projects s
    = Summary.active_projects s + Summary.paused_projects s
      + Summary.archived_projects s ∧
    length (Summary.rows s) = Summary.total_projects s ∧
    Summary.r_id <$> Summary.rows s
    = ProjectConfig.project_id <$> PyDict.values (projects w) ∧
    Summary.focused_project s = focused_project_id w.
Proof.
  eexists. split; [reflexivity|]. simpl. split_and!; try done.
  - rewrite count_by_status. unfold PyDict.values. by rewrite length_fmap.
  - unfold PyDict.values. by rewrite !length_fmap.
  - by rewrite <-list_fmap_compose.
Qed.

Lemma length_filter_split {A} (P : A → Prop) `{∀ x, Decision (P x)}
    (l : list A) :
  length (filter P l) + length (filter (λ x, ¬ P x) l) = length l.
Proof.
  induction l as [|x l IH]; [done|]. rewrite !filter_cons.
  destruct (decide (P x)), (decide (¬ P x)); simpl; try lia; tauto.
Qed.

(** In the document of [export_context] the objectives are split in two:
    the completed ones are counted, the others are listed, and the two
    numbers add up to the total. The listed decisions are decisions of the
    project, at most 10 and at most as many as the project has. *)
Theorem export_context_counts (project_id : string) (w : world)
    (p : ProjectConfig.t) :
  PyDict.get project_id (projects w) = Some p →
  ∃ c,
    export_context project_id w = (Ok (Ctx.Filled c), w) ∧
    Ctx.total_objectives (Ctx.the_statistics c)
    = Ctx.completed_objectives (Ctx.the_statistics c)
      + length (Ctx.pending_objectives c) ∧
    length (Ctx.recent_decisions c) ≤ 10 ∧
    length (Ctx.recent_decisions c) ≤ Ctx.total_decisions (Ctx.the_statistics c) ∧
    ∀ e, e ∈ Ctx.recent_decisions c →
         ∃ d, d ∈ ProjectConfig.decisions p ∧ e = Ctx.of_decision d.
Proof.
  intros Hget. eexists. split.
  { unfold export_context. unfold_M. rewrite Hget. reflexivity. }
  simpl. split_and!.
  - rewrite length_fmap.
    rewrite <-(length_filter_split (λ o, is_completed o = true)
                 (ProjectConfig.objectives p)).
    f_equal. f_equal. apply list_filter_iff. intros o.
    by destruct (is_completed o).
  - rewrite length_fmap, length_take. lia.
  - rewrite length_fmap, length_take, sorted_desc_perm. lia.
  - intros e (d & -> & Hd)%list_elem_of_fmap. exists d. split; [|done].
    apply subseteq_take in Hd. by rewrite sorted_desc_perm in Hd.
Qed.

End Documents.

Lemma export_context_counts_witness :
  PyDict.get "proj_0123456789ab" (projects Samples.busy_world)
  = Some Samples.busy_project ∧
  ∃ c,
    export_context "proj_0123456789ab" Samples.busy_world
    = (Ok (Ctx.Filled c), Samples.busy_world) ∧
    length (Ctx.recent_decisions c) ≤ 10.
Proof.
  assert (PyDict.get "proj_0123456789ab" (projects Samples.busy_world)
          = Some Samples.busy_project) as Hget by reflexivity.
  destruct (export_context_counts _ _ _ Hget) as (c & Hc & _ & Hlen & _).
  split; [exact Hget|]. exists c. split; [exact Hc | exact Hlen].
Defined.

(** ** The order of the exported decisions *)

Section SortOrder.
Context {A : Type} (key : A → string).



Lemma insert_desc_last (x : A) (l : list A) :
  Forall (λ y, (key x <? key y)%string = true) l →
  insert_desc key x l = l ++ [x].
Proof.
  induction 1 as [|y l Hy Hl IH]; [done|]. simpl. by rewrite Hy, IH.
Qed.

(** A list in strictly ascending order of key is reversed by the sort. *)
Lemma sorted_desc_ascending (l : list A) :
  StronglySorted (λ a b, (key a <? key b)%string = true) l →
  sorted_desc key l = reverse l.
Proof.
  induction 1 as [|x l Hl IH Hx]; [done|]. simpl.
  rewrite IH, reverse_cons. apply insert_desc_last.
  by rewrite Forall_reverse.
Qed.

End SortOrder.


(** When the timestamps of the decisions are strictly increasing in the
    order of the record, as they are when they come from a clock that
    advances, the exported decisions are the last 10 that were added, the
    latest first. *)
Theorem export_context_latest (project_id : string) (w : world)
    (p : ProjectConfig.t) :
  PyDict.get project_id (projects w) = Some p →
  StronglySorted
    (λ a b, (Decision.timestamp a <? Decision.timestamp b)%string = true)
    (ProjectConfig.decisions p) →
  ∃ c,
    export_context project_id w = (Ok (Ctx.Filled c), w) ∧
    Ctx.recent_decisions c
    = Ctx.of_decision <$> take 10 (reverse (ProjectConfig.decisions p)).
Proof.
  intros Hget Hasc. eexists. split.
  { unfold export_context. unfold_M. rewrite Hget. reflexivity. }
  simpl. by rewrite sorted_desc_ascending.
Qed.


Lemma export_context_latest_witness :
  let p := ProjectConfig.set_decisions
             (Samples.decision_at <$> ["01"; "02"; "03"])
             (Samples.record "proj_0123456789ab" "Alpha" ACTIVE) in
  let w := World [("proj_0123456789ab", p)] None ∅ [] in
  PyDict.get "proj_0123456789ab" (projects w) = Some p ∧
  StronglySorted
    (λ a b, (Decision.timestamp a <? Decision.timestamp b)%string = true)
    (ProjectConfig.decisions p) ∧
  ∃ c,
    export_context "proj_0123456789ab" w = (Ok (Ctx.Filled c), w) ∧
    Ctx.d_timestamp <$> Ctx.recent_decisions c
    = ["2025-04-03T12:00:00"; "2025-04-02T12:00:00"; "2025-04-01T12:00:00"].
Proof.
  intros p w.
  assert (PyDict.get "proj_0123456789ab" (projects w) = Some p) as Hget
    by reflexivity.
  assert (StronglySorted
            (λ a b, (Decision.timestamp a <? Decision.timestamp b)%string = true)
            (ProjectConfig.decisions p)) as Hasc
    by (simpl; repeat constructor).
  destruct (export_context_latest _ _ _ Hget Hasc) as (c & Hc & Hrecent).
  split_and!; [exact Hget | exact Hasc |].
  exists c. split; [exact Hc|]. rewrite Hrecent. reflexivity.
Defined.

(** ** Watch directories *)

Section WatchDirs.

Variable abspath : string → string.

Lemma watch_dirs_of_active (w : world) :
  reachable abspath w →
  ∃ dirs,
    get_all_watch_dirs w = (Ok dirs, w) ∧
    ∀ d, d ∈ dirs ↔
         ∃ pid p, PyDict.get pid (projects w) = Some p ∧
                  ProjectConfig.status p = ACTIVE ∧
                  d ∈ ProjectConfig.watch_dirs p.
Proof.
  intros Hr. pose proof (reachable_NoDup _ _ Hr) as Hnd.
  eexists. split; [reflexivity|]. intros d.
  rewrite elem_of_list_to_set, list_elem_of_bind. split.
  - intros (p & Hd & [Hact (k & Hin)%elem_values]%list_elem_of_filter).
    exists k, p. split_and!; [by apply elem_get_NoDup| |done].
    unfold is_active in Hact. by apply bool_decide_eq_true in Hact.
  - intros (k & p & Hget & Hact & Hd). exists p. split; [done|].
    apply list_elem_of_filter. split.
    + unfold is_active. by apply bool_decide_eq_true.
    + unfold PyDict.values. apply list_elem_of_fmap. exists (k, p).
      split; [done|]. by apply get_Some_elem.
Qed.

(** [get_all_watch_dirs] changes nothing, and its result holds exactly the
    watch directories of the active projects of the store, each once. *)
Theorem all_watch_dirs_spec (w : world) :
  reachable abspath w →
  ∃ dirs,
    get_all_watch_dirs w = (Ok dirs, w) ∧
    ∀ d, d ∈ dirs ↔
         ∃ pid p, PyDict.get pid (projects w) = Some p ∧
                  ProjectConfig.status p = ACTIVE ∧
                  d ∈ ProjectConfig.watch_dirs p.
Proof. apply watch_dirs_of_active. Qed.

(** After [pause_project] on a project, the watch directories are those of
    the other active projects: a directory the paused project shared with
    one of them stays, the ones it alone watched are gone. *)
Theorem pause_drops_watch_dirs (now project_id : string) (w : world)
    (p : ProjectConfig.t) :
  reachable abspath w →
  PyDict.get project_id (projects w) = Some p →
  ∃ w' dirs,
    pause_project now WriteOk project_id w = (Ok true, w') ∧
    get_all_watch_dirs w' = (Ok dirs, w') ∧
    ∀ d, d ∈ dirs ↔
         ∃ k q, k ≠ project_id ∧ PyDict.get k (projects w) = Some q ∧
                ProjectConfig.status q = ACTIVE ∧
                d ∈ ProjectConfig.watch_dirs q.
Proof.
  intros Hr Hget.
  assert (reachable abspath (run abspath WriteOk (PauseProject now project_id) w))
    as Hr' by (eapply reachable_step; [done|apply step_call]).
  assert (pause_project now WriteOk project_id w
          = (Ok true, run abspath WriteOk (PauseProject now project_id) w))
    as Hret.
  { unfold run, exec, forget, pause_project. unfold mbind at 1. unfold M_bind.
    by rewrite (update_status_known _ _ _ _ _ Hget). }
  destruct (watch_dirs_of_active _ Hr') as (dirs & Hdirs & Hiff).
  eexists _, dirs. split; [exact Hret|]. split; [exact Hdirs|].
  intros d. rewrite Hiff.
  assert (projects (run abspath WriteOk (PauseProject now project_id) w)
          = PyDict.setitem project_id
              (ProjectConfig.set_last_active now
                 (ProjectConfig.set_status PAUSED p)) (projects w)) as ->.
  { unfold run, exec, forget, pause_project. unfold mbind at 1. unfold M_bind.
    by rewrite (update_status_known _ _ _ _ _ Hget). }
  split.
  - intros (k & q & Hk & Hact & Hd). rewrite get_setitem in Hk.
    case_decide; [by simplify_eq|]. exists k, q. by split_and!.
  - intros (k & q & Hne & Hk & Hact & Hd). exists k, q.
    split_and!; [|done..]. by rewrite get_setitem_ne.
Qed.

End WatchDirs.

Lemma all_watch_dirs_spec_witness :
  reachable id Samples.completed_world ∧
  ∃ dirs, get_all_watch_dirs Samples.completed_world
          = (Ok dirs, Samples.completed_world) ∧
          "/tmp/alpha" ∈ dirs.
Proof.
  destruct (all_watch_dirs_spec id _ completed_world_reachable)
    as (dirs & Hdirs & Hiff).
  split; [exact completed_world_reachable|]. exists dirs.
  split; [exact Hdirs|]. apply Hiff.
  eexists "proj_9f8e7d6c5b4a", _. split_and!.
  - vm_compute. reflexivity.
  - reflexivity.
  - simpl. left.
Defined.

Lemma pause_drops_watch_dirs_witness :
  reachable id Samples.completed_world ∧
  ∃ p w' dirs,
    PyDict.get "proj_9f8e7d6c5b4a" (projects Samples.completed_world) = Some p ∧
    pause_project "2025-03-09T08:00:00" WriteOk "proj_9f8e7d6c5b4a"
      Samples.completed_world = (Ok true, w') ∧
    get_all_watch_dirs w' = (Ok dirs, w') ∧
    "/tmp/alpha" ∉ dirs.
Proof.
  destruct (PyDict.get "proj_9f8e7d6c5b4a" (projects Samples.completed_world))
    as [p|] eqn:Hget; [|by vm_compute in Hget].
  destruct (pause_drops_watch_dirs id "2025-03-09T08:00:00" "proj_9f8e7d6c5b4a"
              _ _ completed_world_reachable Hget) as (w' & dirs & Hret & Hdirs & Hiff).
  split; [exact completed_world_reachable|]. exists p, w', dirs.
  split_and!; [reflexivity | exact Hret | exact Hdirs |].
  intros (k & q & Hne & Hk & _)%Hiff. vm_compute in Hk.
  destruct (String.eqb_spec k "proj_9f8e7d6c5b4a") as [->|Hk']; [done|].
  revert Hk. change (PyDict.get k (projects Samples.completed_world) = Some q → False).
  clear -Hk'. intros Hk.
  assert (is_Some (PyDict.get k (projects Samples.completed_world))) as Hsome
    by eauto.
  clear Hk. revert Hsome. vm_compute projects. simpl.
  rewrite decide_False by done. by intros [? ?].
Defined.

(** ** Restart *)

Section Restart.

Variable abspath : string → string.





Lemma load_all_projects_unfocused listing w :
  focused_project_id w = None →
  let w1 := (for_each listing load_config_file w).2 in
  load_all_projects listing w
  = (Ok (),
     World (projects w1)
       (ProjectConfig.project_id
          <$> head (filter (λ p, ProjectConfig.status p = ACTIVE)
                      (PyDict.values (projects w1))))
       (files w1) (log w1)).
Proof.
  intros Hnone. unfold load_all_projects. unfold mbind at 1. unfold M_bind.
  pose proof (for_each_load_ok listing w) as Hok.
  destruct (for_each_load_eq listing w) as (_ & Hfoc & _).
  rewrite Hnone in Hfoc.
  destruct (for_each listing load_config_file w) as [[[]|e] w1];
    simpl in Hok, Hfoc; [|done].
  destruct w1 as [ps foc fs lg]. simpl in Hfoc. subst foc. unfold_M.
  assert (filter (λ p, is_active p = true) (PyDict.values ps)
          = filter (λ p, ProjectConfig.status p = ACTIVE) (PyDict.values ps))
    as Hfilter.
  { apply list_filter_iff. intros p. unfold is_active.
    by rewrite bool_decide_eq_true. }
  case_bool_decide as Hnil; simpl.
  - by subst ps.
  - unfold PyDict.values in Hfilter. rewrite <-Hfilter.
    by destruct (filter _ _) as [|p l].
Qed.

(** The focus is not stored: a new manager focuses the first active record
    in the order of its map, and none when no record is active, whatever the
    focus of the manager that wrote the files was. *)
Theorem init_focus (listing : list string) (disk : gmap string content) :
  focused_project_id (init listing disk).2
  = ProjectConfig.project_id
      <$> head (filter (λ p, ProjectConfig.status p = ACTIVE)
                  (PyDict.values (projects (init listing disk).2))).
Proof.
  unfold init. by rewrite load_all_projects_unfocused.
Qed.

End Restart.

